(** * dingo: preparation of gravitational-wave event data for inference

    A shallow embedding of [dingo/gw/inference/data_preparation.py]:
    [load_raw_data], [parse_settings_for_raw_data], [data_to_domain],
    [get_domain_data] and [get_corrected_sky_position], together with the
    Python values, exceptions and IEEE-754 doubles they compute with.

    Part I holds the definitions, Part II the lemmas and theorems, Part III
    further properties of the same functions. *)

From Stdlib Require Import NArith ZArith Bool.
From stdpp Require Import base option strings list gmap fin_maps.

Set Default Proof Using "Type".

(* ===================================================================== *)
(** * Part I: definitions                                                 *)
(* ===================================================================== *)

(** ** IEEE-754 binary64 values

    Python's [float] and NumPy's [float64].  Every finite double is an
    integer multiple of [2^-1074], the smallest subnormal; [Fin s n] is the
    double of sign [s] and magnitude [n * 2^-1074].  The arithmetic works on
    these integers and rounds to nearest, ties to even, to a significand of
    53 bits. *)
Module Float64.
Local Open Scope N_scope.

Inductive float : Set :=
  | NaN
  | Inf (neg : bool)
  | Fin (neg : bool) (mag : N).

#[global] Instance float_eq_dec : EqDecision float.
Proof. solve_decision. Defined.

(** Exponent of the unit: [1.0] is [2^1074] units. *)
Definition unit_exp : N := 1074.
(** Magnitudes from [2^1024] (in units: [2^2098]) on overflow. *)
Definition overflow_mag : N := 2 ^ 2098.

(** [p / d] rounded to the nearest integer, ties to the even one. *)
Definition rne_div (p d : N) : N :=
  let q := p / d in
  match 2 * (p mod d) ?= d with
  | Lt => q
  | Gt => q + 1
  | Eq => if N.even q then q else q + 1
  end.

(** The exact magnitude [p / d] (in units) rounded to 53 significant
    bits: below [2^53] units the spacing of doubles is one unit, from
    there on it is [2^(log2 - 52)] units. *)
Definition round_mag (p d : N) : N :=
  let sh := N.log2 (p / d) - 52 in
  rne_div p (d * 2 ^ sh) * 2 ^ sh.

Definition pack (s : bool) (p d : N) : float :=
  let m := round_mag p d in
  if m <? overflow_mag then Fin s m else Inf s.

Definition signed (s : bool) (n : N) : Z :=
  if s then (- Z.of_N n)%Z else Z.of_N n.

Definition zero : float := Fin false 0.

(** Conversion of a Python [int]. *)
Definition of_Z (z : Z) : float :=
  pack (z <? 0)%Z (Z.abs_N z * 2 ^ unit_exp) 1.

(** The double nearest to the decimal literal [p / d]. *)
Definition of_decimal (p d : N) : float :=
  pack false (p * 2 ^ unit_exp) d.

Definition one : float := of_decimal 1 1.

Definition is_nan (x : float) : bool :=
  match x with NaN => true | _ => false end.

Definition is_finite (x : float) : bool :=
  match x with Fin _ _ => true | _ => false end.

Definition is_zero (x : float) : bool :=
  match x with Fin _ 0 => true | _ => false end.

Definition sign_bit (x : float) : bool :=
  match x with NaN => false | Inf s | Fin s _ => s end.

Definition copysign (x y : float) : float :=
  match x with
  | NaN => NaN
  | Inf _ => Inf (sign_bit y)
  | Fin _ a => Fin (sign_bit y) a
  end.

Definition fneg (x : float) : float :=
  match x with
  | NaN => NaN
  | Inf s => Inf (negb s)
  | Fin s a => Fin (negb s) a
  end.

Definition fadd (x y : float) : float :=
  match x, y with
  | NaN, _ | _, NaN => NaN
  | Inf sx, Inf sy => if Bool.eqb sx sy then Inf sx else NaN
  | Inf sx, Fin _ _ => Inf sx
  | Fin _ _, Inf sy => Inf sy
  | Fin sx a, Fin sy b =>
      if a =? 0 then (if b =? 0 then Fin (sx && sy) 0 else y)
      else if b =? 0 then x
      else
        let z := (signed sx a + signed sy b)%Z in
        if (z =? 0)%Z then zero else pack (z <? 0)%Z (Z.abs_N z) 1
  end.

Definition fsub (x y : float) : float := fadd x (fneg y).

Definition fmul (x y : float) : float :=
  match x, y with
  | NaN, _ | _, NaN => NaN
  | Inf sx, Inf sy => Inf (xorb sx sy)
  | Inf sx, Fin sy b => if b =? 0 then NaN else Inf (xorb sx sy)
  | Fin sx a, Inf sy => if a =? 0 then NaN else Inf (xorb sx sy)
  | Fin sx a, Fin sy b => pack (xorb sx sy) (a * b) (2 ^ unit_exp)
  end.

(** IEEE division: a finite non-zero value over zero is an infinity
    (Python's own [float] raises instead, see [py_one_over]). *)
Definition fdiv (x y : float) : float :=
  match x, y with
  | NaN, _ | _, NaN => NaN
  | Inf _, Inf _ => NaN
  | Inf sx, Fin sy _ => Inf (xorb sx sy)
  | Fin sx _, Inf sy => Fin (xorb sx sy) 0
  | Fin sx a, Fin sy b =>
      if b =? 0 then (if a =? 0 then NaN else Inf (xorb sx sy))
      else pack (xorb sx sy) (a * 2 ^ unit_exp) b
  end.

(** Correctly rounded square root.  With [A = a * 2^1074] the exact root
    in units is [sqrt A]; [q] is its floor at the spacing [t] of the
    result, and the comparison of [4A] with [((2q+1) t)^2] decides on
    which side of the midpoint the root lies. *)
Definition sqrt_mag (a : N) : N :=
  let A := a * 2 ^ unit_exp in
  let t := 2 ^ (N.log2 (N.sqrt A) - 52) in
  let q := N.sqrt A / t in
  match 4 * A ?= ((2 * q + 1) * t) * ((2 * q + 1) * t) with
  | Lt => q * t
  | Gt => (q + 1) * t
  | Eq => (if N.even q then q else q + 1) * t
  end.

Definition fsqrt (x : float) : float :=
  match x with
  | NaN => NaN
  | Inf s => if s then NaN else Inf false
  | Fin s a =>
      if a =? 0 then x else if s then NaN else Fin false (sqrt_mag a)
  end.

(** Comparison; [None] when unordered (a NaN is involved). *)
Definition fcompare (x y : float) : option comparison :=
  match x, y with
  | NaN, _ | _, NaN => None
  | Inf sx, Inf sy =>
      Some (if sx then (if sy then Eq else Lt) else (if sy then Gt else Eq))
  | Inf sx, Fin _ _ => Some (if sx then Lt else Gt)
  | Fin _ _, Inf sy => Some (if sy then Gt else Lt)
  | Fin sx a, Fin sy b => Some (signed sx a ?= signed sy b)%Z
  end.

Definition fltb (x y : float) : bool :=
  match fcompare x y with Some Lt => true | _ => false end.

Definition fleb (x y : float) : bool :=
  match fcompare x y with Some Lt | Some Eq => true | _ => false end.

Definition feqb (x y : float) : bool :=
  match fcompare x y with Some Eq => true | _ => false end.

(** C's [fmod]: the exact remainder of the truncated quotient, with the
    sign of the dividend. *)
Definition fmod (x y : float) : float :=
  match x, y with
  | NaN, _ | _, NaN => NaN
  | Inf _, _ => NaN
  | Fin _ _, Inf _ => x
  | Fin sx a, Fin _ b => if b =? 0 then NaN else Fin sx (a mod b)
  end.

(** The [%] of floats ([float_rem] in CPython, [npy_remainder] in NumPy):
    [fmod], then a remainder whose sign differs from the divisor's has
    the divisor added, and a zero remainder takes the divisor's sign. *)
Definition float_rem (x y : float) : float :=
  let m := fmod x y in
  if is_zero y then m
  else if negb (is_zero m) then
    (if xorb (fltb y zero) (fltb m zero) then fadd m y else m)
  else copysign zero y.

(** [numpy.pi], the double [0x1.921fb54442d18p+1]. *)
Definition np_pi : float := Fin false (7074237752028440 * 2 ^ 1023).

(** Significand and binary exponent of a finite double, for reading
    values: [x = (-1)^s * m * 2^e]. *)
Definition decode (x : float) : option (bool * N * Z) :=
  match x with
  | Fin s a =>
      let sh := N.log2 a - 52 in
      Some (s, a / 2 ^ sh, (Z.of_N sh - 1074)%Z)
  | _ => None
  end.
End Float64.
Export Float64.

(** ** Python values, exceptions and objects *)

(** The values that model metadata, settings and keyword arguments hold:
    what a YAML or JSON configuration loads to. *)
#[warnings="-register-all"]
Inductive value :=
  | VNone
  | VBool (b : bool)
  | VInt (z : Z)
  | VFloat (x : float)
  | VStr (s : string)
  | VList (l : list value)
  | VDict (d : gmap string value).

Fixpoint value_eq_dec (v w : value) {struct v} : Decision (v = w).
Proof.
  refine
    match v, w with
    | VNone, VNone => left _
    | VBool a, VBool b => cast_if (decide (a = b))
    | VInt a, VInt b => cast_if (decide (a = b))
    | VFloat a, VFloat b => cast_if (decide (a = b))
    | VStr a, VStr b => cast_if (decide (a = b))
    | VList a, VList b => cast_if (@list_eq_dec _ value_eq_dec a b)
    | VDict a, VDict b => cast_if (@gmap_eq_dec _ _ _ _ value_eq_dec a b)
    | _, _ => right _
    end; congruence.
Defined.

#[global] Instance value_eq_decision : EqDecision value := value_eq_dec.

(** The exceptions the module raises or lets through. *)
Inductive exn :=
  | NotImplementedError (msg : string)
  | KeyError (key : string)
  | TypeError (msg : string)
  | ZeroDivisionError (msg : string)
  | OtherError (cls msg : string).

#[global] Instance exn_eq_dec : EqDecision exn.
Proof. solve_decision. Defined.

(** The outcome of a call: a returned value or a raised exception. *)
Inductive result (A : Type) :=
  | Ok (a : A)
  | Raise (e : exn).
Arguments Ok {A} a.
Arguments Raise {A} e.

#[global] Instance result_ret : MRet result := @Ok.
#[global] Instance result_bind : MBind result := λ A B f r,
  match r with Ok a => f a | Raise e => Raise e end.
#[global] Instance result_fmap : FMap result := λ A B f r,
  match r with Ok a => Ok (f a) | Raise e => Raise e end.

Definition is_Ok {A} (r : result A) : Prop := ∃ a, r = Ok a.

(** [for x in items: body], threading the state the body mutates; the
    first exception ends the loop. *)
Fixpoint for_each {A S} (items : list A) (body : A → S → result S) (s : S)
    : result S :=
  match items with
  | [] => Ok s
  | x :: rest => s' ← body x s; for_each rest body s'
  end.

(** A class object: its module, its name and its direct bases. *)
#[warnings="-register-all"]
Inductive pyclass :=
  | PyClass (module name : string) (bases : list pyclass).

Fixpoint pyclass_eq_dec (c d : pyclass) {struct c} : Decision (c = d).
Proof.
  refine
    match c, d with
    | PyClass m n bs, PyClass m' n' bs' =>
        cast_if_and3 (decide (m = m')) (decide (n = n'))
                     (@list_eq_dec _ pyclass_eq_dec bs bs')
    end; congruence.
Defined.

#[global] Instance pyclass_eq_decision : EqDecision pyclass := pyclass_eq_dec.

(** [issubclass(c, d)]: [c] is [d] or one of its bases is a subclass. *)
Fixpoint issubclass (c d : pyclass) {struct c} : bool :=
  bool_decide (c = d)
  || (let 'PyClass _ _ bs := c in existsb (λ b, issubclass b d) bs).

(** [str(cls)], as an f-string prints a class. *)
Definition class_repr (c : pyclass) : string :=
  let 'PyClass m n _ := c in "<class '" +:+ m +:+ "." +:+ n +:+ "'>".

(** [v[key]] on a loaded configuration value. *)
Definition py_getitem (v : value) (key : string) : result value :=
  match v with
  | VDict d =>
      match d !! key with
      | Some x => Ok x
      | None => Raise (KeyError key)
      end
  | _ => Raise (TypeError "object is not subscriptable with a str key")
  end.

(** [d[key]] on a [dict]. *)
Definition dict_getitem {A} (d : gmap string A) (key : string) : result A :=
  match d !! key with
  | Some x => Ok x
  | None => Raise (KeyError key)
  end.

(** [v == s] for a string literal [s]: only an equal [str] compares
    equal. *)
Definition py_eq_str (v : value) (s : string) : bool :=
  match v with
  | VStr s' => bool_decide (s' = s)
  | _ => false
  end.

(** [1 / v].  An [int] divisor gives the correctly rounded quotient, a
    [float] divisor the IEEE quotient; a zero divisor raises. *)
Definition py_one_over (v : value) : result float :=
  match v with
  | VInt z =>
      if bool_decide (z = 0%Z)
      then Raise (ZeroDivisionError "division by zero")
      else Ok (pack (z <? 0)%Z (2 ^ unit_exp) (Z.abs_N z))
  | VBool b =>
      if b then Ok one else Raise (ZeroDivisionError "division by zero")
  | VFloat x =>
      if is_zero x
      then Raise (ZeroDivisionError "float division by zero")
      else Ok (fdiv one x)
  | _ => Raise (TypeError "unsupported operand type(s) for /")
  end.

(** A NumPy array of doubles or of complex doubles. *)
Inductive ndarray :=
  | RealArray (a : list float)
  | ComplexArray (a : list (float * float)).

#[global] Instance ndarray_eq_dec : EqDecision ndarray.
Proof. solve_decision. Defined.

(** [psd ** 0.5]: NumPy evaluates the scalar exponent [0.5] with its
    square-root loop, element by element. *)
Definition array_pow_half (psd : list float) : list float := fsqrt <$> psd.

(** ** The data model *)

(** Raw event data: per detector, the strain samples and the PSD. *)
Record raw_data := RawData {
  raw_strain : gmap string (list float);
  raw_psd : gmap string (list float);
}.

#[global] Instance raw_data_eq_dec : EqDecision raw_data.
Proof. solve_decision. Defined.

(** The result of [data_to_domain]: [{"waveform": {...}, "asds": {...}}]. *)
Record domain_data := DomainData {
  waveform : gmap string ndarray;
  asds : gmap string ndarray;
}.

(** What a [DingoDataset] dictionary holds under a key. *)
Inductive dataset_item :=
  | ItemData (d : raw_data)
  | ItemSettings (s : gmap string value).

Record DingoDataset := {
  dictionary : gmap string dataset_item;
  data_keys : list string;
}.

(** One live acquisition: the arguments of a [download_raw_data] call. *)
Definition acquisition : Type := float * gmap string value.

(** ** The collaborators

    What [data_preparation.py] imports and calls: the built-in [str], the
    signal-processing libraries, the domain classes, astropy's time
    conversions, the dataset file and the download.  Each is an interface;
    the functions below are written against it. *)

Class Builtins := {
  (** [str(v)]; a [str] is its own text. *)
  py_str : value → string;
}.

(** What [f"{v}"] prints. *)
Definition format_value `{Builtins} (v : value) : string :=
  match v with
  | VStr s => s
  | _ => py_str v
  end.

(** [dingo.gw.gwutils.get_window] and the gwpy and pycbc series the
    strain passes through. *)
Class SignalProcessing := {
  series : Type;
  get_window : value → result (list float);
  TimeSeries : list float → float → result series;
  to_pycbc : series → result series;
  mul_window : series → list float → result series;
  to_frequencyseries : series → result series;
  cyclic_time_shift : series → value → result series;
  np_array : series → result ndarray;
}.

(** [dingo.gw.domains]: the class [FrequencyDomain], the domain objects
    with their [update_data] method (the keyword [low_value] is [None]
    when the call leaves it out), and the factory. *)
Class Domains := {
  domain : Type;
  type_of : domain → pyclass;
  FrequencyDomain : pyclass;
  update_data : domain → ndarray → option float → result ndarray;
  build_domain_from_model_metadata : value → result domain;
}.

Definition isinstance `{Domains} (d : domain) (c : pyclass) : bool :=
  issubclass (type_of d) c.

(** [astropy.time.Time]: construction from a value, a format and a scale,
    and [sidereal_time(kind, longitude)], a [Longitude] given here by its
    value in hour angle. *)
Class Astropy := {
  time : Type;
  Time : float → string → string → result time;
  sidereal_time : time → string → string → result float;
}.

(** The dataset file behind [event_dataset]: [load_data_from_file] reads
    the file system, [DingoDataset.to_file] changes it. *)
Class Storage := {
  FS : Type;
  load_data_from_file :
    string → string → gmap string value → FS → result (option raw_data);
  to_file : DingoDataset → string → string → FS → result () * FS;
}.

(** [download_raw_data(time_event, **settings)].  What it returns may
    depend on the acquisitions made before. *)
Class Network := {
  download_raw_data :
    float → gmap string value → list acquisition → result raw_data;
}.

(** ** The world and its monad *)

(** The state outside the program: the file system, the live acquisitions
    made so far (most recent last) and the lines printed. *)
Record world `{Storage} := World {
  fs : FS;
  acquisitions : list acquisition;
  stdout : list string;
}.
Arguments World {_} _ _ _.

(** A computation that may change the world and may raise; the changes
    made before an exception stay. *)
Definition M `{Storage} (A : Type) : Type := world → result A * world.

#[global] Instance world_ret `{Storage} : MRet M := λ A a w, (Ok a, w).

#[global] Instance world_bind `{Storage} : MBind M := λ A B k m w,
  match m w with
  | (Ok a, w') => k a w'
  | (Raise e, w') => (Raise e, w')
  end.

(** A pure call inside the monad. *)
Definition lift `{Storage} {A} (r : result A) : M A := λ w, (r, w).

Definition print `{Storage} (line : string) : M () := λ w,
  (Ok (), World (fs w) (acquisitions w) (stdout w ++ [line])).

Definition call_load_data_from_file `{Storage}
    (file_name data_key : string) (settings : gmap string value)
    : M (option raw_data) := λ w,
  (load_data_from_file file_name data_key settings (fs w), w).

Definition call_to_file `{Storage}
    (dataset : DingoDataset) (file_name mode : string) : M () := λ w,
  let '(r, fs') := to_file dataset file_name mode (fs w) in
  (r, World fs' (acquisitions w) (stdout w)).

(** A download is a live acquisition: it is recorded, whatever it
    returns. *)
Definition call_download_raw_data `{Storage, Network}
    (time_event : float) (settings : gmap string value) : M raw_data := λ w,
  (download_raw_data time_event settings (acquisitions w),
   World (fs w) (acquisitions w ++ [(time_event, settings)]) (stdout w)).

(** ** [data_preparation.py] *)

Section data_preparation.
Context `{Builtins, SignalProcessing, Domains, Astropy, Storage, Network}.

(** The three lines [load_raw_data] prints. *)
Definition found_line (event file : string) : string :=
  "Data for event at " +:+ event +:+ " found in " +:+ file +:+ ".".

Definition downloading_line (event : string) : string :=
  "Downloading data for event at " +:+ event +:+ ".".

Definition saving_line (event file : string) : string :=
  "Saving data for event at " +:+ event +:+ " to " +:+ file +:+ ".".

(** [DingoDataset(dictionary={event: data, "settings": settings},
    data_keys=[event])]. *)
Definition cache_dataset (event : string) (data : raw_data)
    (settings : gmap string value) : DingoDataset :=
  {| dictionary :=
       <["settings" := ItemSettings settings]> {[ event := ItemData data ]};
     data_keys := [event] |}.

(** [load_raw_data(time_event, settings, event_dataset=None)].  The
    early [return data] of the cache hit is the [Some] of [cached]. *)
Definition load_raw_data (time_event : float)
    (settings : gmap string value) (event_dataset : option string)
    : M raw_data :=
  let event := py_str (VFloat time_event) in
  cached ←
    match event_dataset with
    | Some file =>
        data ← call_load_data_from_file file event settings;
        match data with
        | Some d => print (found_line event file);; mret (Some d)
        | None => mret None
        end
    | None => mret None
    end;
  match cached with
  | Some d => mret d
  | None =>
      print (downloading_line event);;
      data ← call_download_raw_data time_event settings;
      match event_dataset with
      | Some file =>
          let dataset := cache_dataset event data settings in
          print (saving_line event file);;
          call_to_file dataset file "a"
      | None => mret ()
      end;;
      mret data
  end.

(** [model_metadata["dataset_settings"]["domain"]["type"]], the declared
    domain kind. *)
Definition metadata_domain_type (model_metadata : value) : result value :=
  dataset_settings ← py_getitem model_metadata "dataset_settings";
  domain_settings ← py_getitem dataset_settings "domain";
  py_getitem domain_settings "type".

(** [parse_settings_for_raw_data(model_metadata, time_psd, time_buffer)].
    The lookups run in the order the dict display evaluates them. *)
Definition parse_settings_for_raw_data
    (model_metadata time_psd time_buffer : value)
    : result (gmap string value) :=
  domain_type ← metadata_domain_type model_metadata;
  if py_eq_str domain_type "FrequencyDomain" then
    train_settings ← py_getitem model_metadata "train_settings";
    data_settings ← py_getitem train_settings "data";
    window ← py_getitem data_settings "window";
    detectors ← py_getitem data_settings "detectors";
    window_T ← py_getitem data_settings "window";
    time_segment ← py_getitem window_T "T";
    window_f_s ← py_getitem data_settings "window";
    f_s ← py_getitem window_f_s "f_s";
    Ok (<["f_s" := f_s]>
        (<["time_buffer" := time_buffer]>
        (<["time_psd" := time_psd]>
        (<["time_segment" := time_segment]>
        (<["detectors" := detectors]>
        (<["window" := window]> ∅))))))
  else
    Raise (NotImplementedError
             ("Unknown domain type " +:+ format_value domain_type)).

(** One strain through lines 97 to 103: time series, window, Fourier
    transform, time shift, and the domain's layout. *)
Definition strain_to_domain (settings_raw_data : gmap string value)
    (dom : domain) (window : list float) (event_strain : list float)
    : result ndarray :=
  f_s ← dict_getitem settings_raw_data "f_s";
  dt ← py_one_over f_s;
  event_strain ← TimeSeries event_strain dt;
  event_strain ← to_pycbc event_strain;
  event_strain ← mul_window event_strain window;
  event_strain ← to_frequencyseries event_strain;
  time_buffer ← dict_getitem settings_raw_data "time_buffer";
  event_strain ← cyclic_time_shift event_strain time_buffer;
  event_strain ← np_array event_strain;
  update_data dom event_strain None.

(** The body of the strain loop: [data["waveform"][det] = event_strain]. *)
Definition convert_strain (settings_raw_data : gmap string value)
    (dom : domain) (window : list float)
    (item : string * list float) (data : domain_data)
    : result domain_data :=
  let '(det, event_strain) := item in
  event_strain ← strain_to_domain settings_raw_data dom window event_strain;
  Ok {| waveform := <[det := event_strain]> (waveform data);
        asds := asds data |}.

(** One PSD through lines 108 and 109: the square roots, then the
    domain's layout with [low_value=1.0]. *)
Definition psd_to_asd (dom : domain) (psd : list float) : result ndarray :=
  let asd := array_pow_half psd in
  update_data dom (RealArray asd) (Some one).

(** The body of the PSD loop: [data["asds"][det] = asd]. *)
Definition convert_psd (dom : domain)
    (item : string * list float) (data : domain_data)
    : result domain_data :=
  let '(det, psd) := item in
  asd ← psd_to_asd dom psd;
  Ok {| waveform := waveform data;
        asds := <[det := asd]> (asds data) |}.

(** [data_to_domain(raw_data, settings_raw_data, domain, **kwargs)].
    The two loops visit the detectors in the order of [map_to_list]. *)
Definition data_to_domain (raw : raw_data)
    (settings_raw_data : gmap string value) (dom : domain)
    (kwargs : gmap string value) : result domain_data :=
  if bool_decide (type_of dom = FrequencyDomain) then
    window_spec ← dict_getitem kwargs "window";
    window ← get_window window_spec;
    let data := {| waveform := ∅; asds := ∅ |} in
    data ← for_each (map_to_list (raw_strain raw))
                    (convert_strain settings_raw_data dom window) data;
    data ← for_each (map_to_list (raw_psd raw)) (convert_psd dom) data;
    Ok data
  else
    Raise (NotImplementedError
             ("Unknown domain type " +:+ class_repr (type_of dom))).

(** [get_domain_data(model_metadata, time_event, time_psd, time_buffer,
    event_dataset=None)]. *)
Definition get_domain_data (model_metadata : value) (time_event : float)
    (time_psd time_buffer : value) (event_dataset : option string)
    : M domain_data :=
  settings_raw_data ←
    lift (parse_settings_for_raw_data model_metadata time_psd time_buffer);
  raw ← load_raw_data time_event settings_raw_data event_dataset;
  lift (dom ← build_domain_from_model_metadata model_metadata;
        train_settings ← py_getitem model_metadata "train_settings";
        data_settings ← py_getitem train_settings "data";
        window ← py_getitem data_settings "window";
        data_to_domain raw settings_raw_data dom {[ "window" := window ]}).

(** One hour angle in radians, [pi / 12]: the factor of astropy's
    conversion behind [Angle.rad]. *)
Definition rad_per_hourangle : float := fdiv np_pi (of_Z 12).

(** [Angle.rad] of an angle held in hour angle. *)
Definition angle_rad (hourangle : float) : float :=
  fmul hourangle rad_per_hourangle.

(** [2 * np.pi]. *)
Definition two_pi : float := fmul (of_Z 2) np_pi.

(** The default of [t_ref], [1126259462.391]. *)
Definition t_ref_default : float := of_decimal 1126259462391 1000.

(** [get_corrected_sky_position(ra, t_event, t_ref=1126259462.391)]. *)
Definition get_corrected_sky_position (ra t_event t_ref : float)
    : result float :=
  time_reference ← Time t_ref "gps" "utc";
  time_event ← Time t_event "gps" "utc";
  longitude_event ← sidereal_time time_event "apparent" "greenwich";
  longitude_reference ←
    sidereal_time time_reference "apparent" "greenwich";
  let delta_longitude := fsub longitude_event longitude_reference in
  let ra_correction := angle_rad delta_longitude in
  let ra_corr := float_rem (fadd ra ra_correction) two_pi in
  Ok ra_corr.
End data_preparation.

(** The magnitude of [2 * np.pi] in units: [0x1.921fb54442d18p+2]. *)
Definition two_pi_mag : N := 7074237752028440 * 2 ^ 1024.

(** The interval tests on a returned right ascension. *)
Definition in_half_open_turn (r : float) : bool :=
  fleb zero r && fltb r two_pi.

Definition in_closed_turn (r : float) : bool :=
  fleb zero r && fleb r two_pi.

(** ** The frequency domain of the specification *)

(** Modelled from the spec: the domain object of [dingo.gw.domains], by
    its class and its declared number of frequency bins. *)
Record spec_domain := SpecDomain {
  sd_class : pyclass;
  sd_bins : nat;
}.

(** Modelled from the spec: the floor clamp, "values below a configured
    minimum are replaced by that minimum". *)
Definition floor_clamp (low_value x : float) : float :=
  if fltb x low_value then low_value else x.

(** Modelled from the spec: [FrequencyDomain.update_data] of
    [dingo.gw.domains], which is not among the sources.  The data is put
    in the domain's layout, truncated or padded with zeros to its declared
    bins, and, when a minimum is given, real values below it are replaced
    by it. *)
Definition spec_update_data (d : spec_domain) (data : ndarray)
    (low_value : option float) : result ndarray :=
  match data with
  | RealArray a =>
      let a := resize (sd_bins d) zero a in
      let a := match low_value with
               | Some low => floor_clamp low <$> a
               | None => a
               end in
      Ok (RealArray a)
  | ComplexArray a => Ok (ComplexArray (resize (sd_bins d) (zero, zero) a))
  end.

(** The domain classes with the specification's [update_data]; the class
    object [FrequencyDomain] and the factory stay parameters. *)
Definition spec_domains (frequency_domain : pyclass)
    (build : value → result spec_domain) : Domains := {|
  domain := spec_domain;
  type_of := sd_class;
  FrequencyDomain := frequency_domain;
  update_data := spec_update_data;
  build_domain_from_model_metadata := build;
|}.

(** ** The cached dataset of the specification *)

(** Modelled from the spec: an entry of the cached dataset, "an
    append-only keyed store, where each key is an event identifier and the
    value is its raw event data plus a settings snapshot". *)
Record cache_entry := CacheEntry {
  entry_key : string;
  entry_payload : raw_data;
  entry_settings : gmap string value;
}.

(** Modelled from the spec: [load_data_from_file] of [dingo.core.utils],
    which is not among the sources.  A keyed lookup by the event
    identifier that validates the stored settings against the requested
    ones; a file that does not exist holds nothing, and no match is not an
    error. *)
Definition spec_load_data_from_file
    (compatible : gmap string value → gmap string value → bool)
    (file_name data_key : string) (settings : gmap string value)
    (files : gmap string (list cache_entry)) : result (option raw_data) :=
  Ok (entry_payload <$>
        find (λ e, bool_decide (entry_key e = data_key)
                   && compatible (entry_settings e) settings)
             (default [] (files !! file_name))).

(** Modelled from the spec: the entries a dataset contributes to the
    store, one per data key, each with the dataset's settings. *)
Definition dataset_entries (dataset : DingoDataset) : list cache_entry :=
  let settings :=
    match dictionary dataset !! "settings" with
    | Some (ItemSettings s) => s
    | _ => ∅
    end in
  omap (λ key,
          match dictionary dataset !! key with
          | Some (ItemData d) => Some (CacheEntry key d settings)
          | _ => None
          end)
       (data_keys dataset).

(** Modelled from the spec: [DingoDataset.to_file] of
    [dingo.core.dataset], which is not among the sources.  In mode ["a"]
    the new entries are appended and the existing ones stay; the
    specification describes no other mode. *)
Definition spec_to_file (dataset : DingoDataset) (file_name mode : string)
    (files : gmap string (list cache_entry))
    : result () * gmap string (list cache_entry) :=
  if bool_decide (mode = "a") then
    (Ok (),
     <[file_name := default [] (files !! file_name) ++ dataset_entries dataset]>
       files)
  else (Raise (OtherError "ValueError" "unsupported mode"), files).

Definition spec_storage
    (compatible : gmap string value → gmap string value → bool)
    : Storage := {|
  FS := gmap string (list cache_entry);
  load_data_from_file := spec_load_data_from_file compatible;
  to_file := spec_to_file;
|}.

(** Settings are compatible when they are equal. *)
Definition settings_equal (stored requested : gmap string value) : bool :=
  bool_decide (stored = requested).

(** ** Stand-ins for the other collaborators

    Small instances used to run the functions on concrete inputs. *)
Module Standin.
(** [str] on the values the examples print: exact on [str], a fixed
    rendering of the doubles used as event times. *)
Definition str (v : value) : string :=
  match v with
  | VStr s => s
  | VNone => "None"
  | VBool b => if b then "True" else "False"
  | VFloat x =>
      if bool_decide (x = t_ref_default) then "1126259462.391"
      else "<float>"
  | _ => "<value>"
  end.

Definition builtins : Builtins := {| py_str := str |}.

(** A signal chain that keeps the samples: window, transform and
    shift are the identity. *)
Definition signal : SignalProcessing := {|
  series := list float;
  get_window := λ _, Ok [];
  TimeSeries := λ samples _, Ok samples;
  to_pycbc := Ok;
  mul_window := λ s _, Ok s;
  to_frequencyseries := Ok;
  cyclic_time_shift := λ s _, Ok s;
  np_array := λ s, Ok (ComplexArray ((λ x, (x, zero)) <$> s));
|}.

(** A clock: the sidereal time is the time modulo 24, in hours. *)
Definition astropy : Astropy := {|
  time := float;
  Time := λ t _ _, Ok t;
  sidereal_time := λ t _ _, Ok (float_rem t (of_Z 24));
|}.

Definition event_data : raw_data := {|
  raw_strain := {[ "H1" := [one; of_Z 2] ]};
  raw_psd := {[ "H1" := [of_Z 4; of_decimal 1 4; of_Z 9] ]};
|}.

(** A download that always returns [event_data]. *)
Definition network : Network := {|
  download_raw_data := λ _ _ _, Ok event_data;
|}.

Definition frequency_domain_class : pyclass :=
  PyClass "dingo.gw.domains" "FrequencyDomain" [PyClass "builtins" "object" []].

(** A class derived from [FrequencyDomain]. *)
Definition derived_class : pyclass :=
  PyClass "user" "BandFrequencyDomain" [frequency_domain_class].

Definition domains : Domains :=
  spec_domains frequency_domain_class
               (λ _, Ok (SpecDomain frequency_domain_class 4)).

(** A domain whose [update_data] returns the [low_value] it is given. *)
Definition probe_domains : Domains := {|
  domain := spec_domain;
  type_of := sd_class;
  FrequencyDomain := frequency_domain_class;
  update_data := λ _ _ low, Ok (RealArray (option_list low));
  build_domain_from_model_metadata :=
    λ _, Ok (SpecDomain frequency_domain_class 4);
|}.

Definition storage : Storage := spec_storage settings_equal.

Definition window_settings : value :=
  VDict {[ "type" := VStr "tukey"; "f_s" := VInt 4096; "T" := VFloat (of_Z 4);
          "roll_off" := VFloat (of_decimal 4 10) ]}.

Definition data_section : value :=
  VDict {[ "window" := window_settings;
           "detectors" := VList [VStr "H1"; VStr "L1"] ]}.

Definition train_section : value := VDict {[ "data" := data_section ]}.

(** Model metadata that declares the domain kind [kind]. *)
Definition metadata (kind : string) : value :=
  VDict {[ "dataset_settings" :=
             VDict {[ "domain" := VDict {[ "type" := VStr kind ]} ]};
           "train_settings" := train_section ]}.

Definition settings : gmap string value :=
  {[ "window" := window_settings;
     "detectors" := VList [VStr "H1"; VStr "L1"];
     "time_segment" := VFloat (of_Z 4);
     "time_psd" := VInt 1024;
     "time_buffer" := VFloat (of_Z 2);
     "f_s" := VInt 4096 ]}.

Definition kwargs : gmap string value := {[ "window" := window_settings ]}.

Definition frequency_domain : spec_domain :=
  SpecDomain frequency_domain_class 4.

Definition derived_domain : spec_domain := SpecDomain derived_class 4.

Definition empty_world : @world storage :=
  @World storage (∅ : gmap string (list cache_entry)) [] [].

(** A world whose file ["events.hdf5"] holds the event at the default
    reference time. *)
Definition cached_world : @world storage :=
  @World storage
    ({[ "events.hdf5" := [CacheEntry "1126259462.391" event_data settings] ]}
       : gmap string (list cache_entry))
    [] [].

(** A negative right ascension below half the spacing of doubles at
    [2 * pi]: [-2^-60]. *)
Definition tiny_negative : float := Fin true (2 ^ 1014).
End Standin.

(** ** Collaborators that fail

    Instances whose calls raise, to run the error paths. *)
Module Faulty.
(** A dataset file that cannot be read: the lookup raises. *)
Definition unreadable_storage : Storage := {|
  FS := gmap string (list cache_entry);
  load_data_from_file := λ _ _ _ _, Raise (OtherError "OSError" "unable to open file");
  to_file := spec_to_file;
|}.

(** A dataset file that holds nothing and cannot be written. *)
Definition readonly_storage : Storage := {|
  FS := gmap string (list cache_entry);
  load_data_from_file := λ _ _ _ _, Ok None;
  to_file := λ _ _ _ files,
    (Raise (OtherError "OSError" "unable to create file"), files);
|}.

(** A download that always fails. *)
Definition offline_network : Network := {|
  download_raw_data := λ _ _ _, Raise (OtherError "ValueError" "cannot fetch data");
|}.

(** Sidereal times that need tables that are not there. *)
Definition astropy_without_tables : Astropy := {|
  time := float;
  Time := λ t _ _, Ok t;
  sidereal_time := λ _ _ _, Raise (OtherError "IERSRangeError" "time out of range");
|}.

(** A signal chain whose time series cannot be built. *)
Definition signal_without_series : SignalProcessing := {|
  series := list float;
  get_window := λ _, Ok [];
  TimeSeries := λ _ _, Raise (OtherError "ValueError" "bad samples");
  to_pycbc := Ok;
  mul_window := λ s _, Ok s;
  to_frequencyseries := Ok;
  cyclic_time_shift := λ s _, Ok s;
  np_array := λ s, Ok (ComplexArray ((λ x, (x, zero)) <$> s));
|}.

(** A factory that builds a domain of a class derived from
    [FrequencyDomain]. *)
Definition derived_domains : Domains :=
  spec_domains Standin.frequency_domain_class
               (λ _, Ok Standin.derived_domain).

(** A factory that raises. *)
Definition domains_without_factory : Domains :=
  spec_domains Standin.frequency_domain_class
               (λ _, Raise (KeyError "f_min")).

(** The empty world after one download without a cache handle. *)
Definition downloaded_world : @world Standin.storage :=
  @World Standin.storage (∅ : gmap string (list cache_entry))
    [(t_ref_default, Standin.settings)]
    ["Downloading data for event at 1126259462.391."].

Definition unreadable_world : @world unreadable_storage :=
  @World unreadable_storage (∅ : gmap string (list cache_entry)) [] [].

Definition readonly_world : @world readonly_storage :=
  @World readonly_storage (∅ : gmap string (list cache_entry)) [] [].
End Faulty.

(* ===================================================================== *)
(** * Part II: lemmas and theorems                                        *)
(* ===================================================================== *)

(** ** Doubles *)

Section float_facts.
Local Open Scope N_scope.

(** The model against known doubles. *)
Example one_is_1 : one = Fin false (2 ^ 1074).
Proof. vm_compute. reflexivity. Qed.

Example sum_tenth_two_tenths :
  decode (fadd (of_decimal 1 10) (of_decimal 2 10))
  = Some (false, 5404319552844596, (-54)%Z)
  ∧ decode (of_decimal 3 10) = Some (false, 5404319552844595, (-54)%Z).
Proof. split; vm_compute; reflexivity. Qed.

Example sqrt_two :
  decode (fsqrt (of_Z 2)) = Some (false, 6369051672525773, (-52)%Z).
Proof. vm_compute. reflexivity. Qed.

Example rem_minus_one :
  decode (float_rem (of_Z (-1)) two_pi)
  = Some (false, 5948337845185816, (-50)%Z).
Proof. vm_compute. reflexivity. Qed.

Lemma two_pi_eq : two_pi = Fin false two_pi_mag.
Proof. vm_compute. reflexivity. Qed.

Lemma two_pi_mag_facts :
  two_pi_mag ≠ 0 ∧ two_pi_mag < overflow_mag
  ∧ N.log2 two_pi_mag - 52 ≤ 1024.
Proof. vm_compute. repeat split; congruence. Qed.

Lemma is_zero_Fin s a : is_zero (Fin s a) = (a =? 0).
Proof. by destruct a. Qed.

Lemma rne_div_upper p d : rne_div p d ≤ p / d + 1.
Proof.
  unfold rne_div. destruct (2 * (p mod d) ?= d); [|lia..].
  destruct (N.even (p / d)); lia.
Qed.

(** Rounding does not step over a point of a grid that is at least as
    coarse as the spacing used. *)
Lemma round_mag_le_grid z m e :
  z < m * 2 ^ e → N.log2 z - 52 ≤ e → round_mag z 1 ≤ m * 2 ^ e.
Proof.
  intros Hz Hsh. unfold round_mag. rewrite N.div_1_r, N.mul_1_l.
  set (sh := N.log2 z - 52) in *.
  assert (Hgrid : m * 2 ^ e = m * 2 ^ (e - sh) * 2 ^ sh).
  { rewrite <- N.mul_assoc, <- N.pow_add_r. do 2 f_equal. lia. }
  rewrite Hgrid. apply N.mul_le_mono_r.
  assert (Hpos : 2 ^ sh ≠ 0) by (apply N.pow_nonzero; lia).
  assert (z / 2 ^ sh < m * 2 ^ (e - sh)).
  { apply N.Div0.div_lt_upper_bound. lia. }
  pose proof (rne_div_upper z (2 ^ sh)). lia.
Qed.

(** [x % y] for a positive finite [y] whose magnitude lies on the grid
    of its own spacing: NaN, or between zero and [y], both included. *)
Lemma fleb_nonneg a b : fleb (Fin false a) (Fin false b) = true ↔ a ≤ b.
Proof.
  unfold fleb, fcompare, signed. rewrite N2Z.inj_compare.
  destruct (N.compare_spec a b); split; (done || lia).
Qed.

Lemma fltb_nonneg a b : fltb (Fin false a) (Fin false b) = true ↔ a < b.
Proof.
  unfold fltb, fcompare, signed. rewrite N2Z.inj_compare.
  destruct (N.compare_spec a b); split; (done || lia).
Qed.

Lemma fltb_zero_r s a : fltb (Fin s a) zero = s && negb (a =? 0).
Proof.
  unfold fltb, fcompare, zero, signed.
  destruct (N.eqb_spec a 0) as [->|Ha]; [by destruct s|].
  change (Z.of_N 0) with 0%Z.
  destruct s; simpl.
  - destruct (Z.compare_spec (- Z.of_N a) 0); (done || lia).
  - destruct (Z.compare_spec (Z.of_N a) 0); (done || lia).
Qed.

(** The sum of a negative and a larger positive magnitude. *)
Lemma fadd_neg_pos a b :
  a ≠ 0 → a < b → fadd (Fin true a) (Fin false b) = pack false (b - a) 1.
Proof.
  intros Ha Hab. unfold fadd, signed.
  destruct (N.eqb_spec a 0) as [|_]; [done|].
  destruct (N.eqb_spec b 0) as [|_]; [lia|].
  destruct (Z.eqb_spec (- Z.of_N a + Z.of_N b) 0) as [|_]; [lia|].
  destruct (Z.ltb_spec (- Z.of_N a + Z.of_N b) 0) as [|_]; [lia|].
  f_equal. lia.
Qed.

(** [x % y] for a positive finite [y] whose magnitude lies on the grid
    of its own spacing: NaN, or between zero and [y], both included. *)
Lemma float_rem_range x M m e :
  M = m * 2 ^ e → M ≠ 0 → M < overflow_mag → N.log2 M - 52 ≤ e →
  float_rem x (Fin false M) = NaN
  ∨ (fleb zero (float_rem x (Fin false M)) = true
     ∧ fleb (float_rem x (Fin false M)) (Fin false M) = true).
Proof.
  intros HM Hnz Hov Hlog.
  unfold float_rem. rewrite is_zero_Fin, fltb_zero_r.
  destruct (N.eqb_spec M 0) as [|_]; [done|]. simpl.
  destruct x as [|s|s a]; [by left..|].
  unfold fmod. destruct (N.eqb_spec M 0) as [|_]; [done|].
  rewrite is_zero_Fin, fltb_zero_r.
  assert (Hr : a mod M < M) by (by apply N.mod_lt).
  generalize dependent (a mod M). intros r Hr.
  destruct (N.eqb_spec r 0) as [Hz|Hr0]; cbn [negb andb xorb].
  { right. unfold zero. cbn [copysign sign_bit]. rewrite !fleb_nonneg. lia. }
  right. unfold zero. destruct s; cbn [negb andb xorb].
  - rewrite fadd_neg_pos by done.
    assert (Hround : round_mag (M - r) 1 ≤ m * 2 ^ e).
    { apply round_mag_le_grid; [rewrite <- HM; lia|].
      etrans; [|exact Hlog]. apply N.sub_le_mono_r, N.log2_le_mono. lia. }
    rewrite <- HM in Hround. unfold pack.
    destruct (N.ltb_spec (round_mag (M - r) 1) overflow_mag); [|lia].
    rewrite !fleb_nonneg. lia.
  - rewrite !fleb_nonneg. lia.
Qed.

Lemma float_rem_two_pi_range x :
  float_rem x two_pi = NaN ∨ in_closed_turn (float_rem x two_pi) = true.
Proof.
  rewrite two_pi_eq. unfold in_closed_turn. rewrite two_pi_eq.
  destruct two_pi_mag_facts as (Hnz & Hov & Hlog).
  destruct (float_rem_range x two_pi_mag 7074237752028440 1024
              eq_refl Hnz Hov Hlog) as [HN|[H0 H1]]; [by left|right].
  by rewrite H0, H1.
Qed.

(** A finite value minus itself is [+0.0]. *)
Lemma fsub_diag g : is_finite g = true → fsub g g = zero.
Proof.
  destruct g as [|s|s a]; [done..|]. intros _. unfold fsub, fneg, fadd.
  destruct (N.eqb_spec a 0) as [->|Ha].
  - by destruct s.
  - replace (signed s a + signed (negb s) a)%Z with 0%Z
      by (destruct s; unfold signed; simpl; lia).
    done.
Qed.

Lemma angle_rad_zero : angle_rad zero = zero.
Proof. vm_compute. reflexivity. Qed.

(** Adding [+0.0] changes at most the sign of a zero, which [%] does
    not see. *)
Lemma float_rem_fadd_zero x y : float_rem (fadd x zero) y = float_rem x y.
Proof.
  destruct x as [|s|s a]; [done..|]. unfold fadd, zero.
  destruct (N.eqb_spec a 0) as [->|Ha]; [|done]. simpl.
  destruct s; [|done].
  unfold float_rem. destruct y as [|sy|sy b]; [done..|]. simpl.
  destruct (N.eqb_spec b 0) as [->|Hb]; [done|].
  rewrite !is_zero_Fin. destruct (N.eqb_spec b 0) as [|_]; [done|].
  rewrite N.Div0.mod_0_l. by destruct b.
Qed.
End float_facts.

(** ** The sky position *)

Section sky_position.
Context `{Astropy}.

(** The function unfolded along the collaborators' results. *)
Lemma corrected_sky_position_formula_aux
    (ra t_event t_ref : float) (T_ref T_event : time) (g_event g_ref : float) :
  Time t_ref "gps" "utc" = Ok T_ref →
  Time t_event "gps" "utc" = Ok T_event →
  sidereal_time T_event "apparent" "greenwich" = Ok g_event →
  sidereal_time T_ref "apparent" "greenwich" = Ok g_ref →
  get_corrected_sky_position ra t_event t_ref
  = Ok (float_rem (fadd ra (angle_rad (fsub g_event g_ref))) two_pi).
Proof.
  intros HTr HTe Hge Hgr. unfold get_corrected_sky_position.
  rewrite HTr. cbn [mbind result_bind]. rewrite HTe. cbn [mbind result_bind].
  rewrite Hge. cbn [mbind result_bind]. rewrite Hgr. reflexivity.
Qed.

(** C2: the returned right ascension is [ra] plus the difference of the
    apparent Greenwich sidereal times at the event and at the reference
    (converted to radians), reduced with [% (2 * np.pi)]. *)
Theorem corrected_sky_position_formula
    (ra t_event t_ref : float) (T_ref T_event : time) (g_event g_ref : float) :
  Time t_ref "gps" "utc" = Ok T_ref →
  Time t_event "gps" "utc" = Ok T_event →
  sidereal_time T_event "apparent" "greenwich" = Ok g_event →
  sidereal_time T_ref "apparent" "greenwich" = Ok g_ref →
  get_corrected_sky_position ra t_event t_ref
  = Ok (float_rem (fadd ra (angle_rad (fsub g_event g_ref))) two_pi).
Proof.
  apply corrected_sky_position_formula_aux.
Qed.

(** Whatever the function returns is a remainder modulo [2 * np.pi]. *)
Lemma corrected_sky_position_is_rem (ra t_event t_ref r : float) :
  get_corrected_sky_position ra t_event t_ref = Ok r →
  ∃ x, r = float_rem x two_pi.
Proof.
  unfold get_corrected_sky_position.
  destruct (Time t_ref _ _) as [T_ref|]; [|done].
  destruct (Time t_event _ _) as [T_event|]; [|done].
  cbn [mbind result_bind].
  destruct (sidereal_time T_event _ _) as [g_event|]; [|done].
  destruct (sidereal_time T_ref _ _) as [g_ref|]; [|done].
  cbn [mbind result_bind]. intros Heq.
  exists (fadd ra (angle_rad (fsub g_event g_ref))).
  symmetry. exact (f_equal (λ o, match o with Ok v => v | Raise _ => r end) Heq).
Qed.

(** C3, as amended: a returned right ascension is NaN or lies in the
    closed interval from zero to [2 * np.pi]. *)
Theorem corrected_sky_position_range (ra t_event t_ref r : float) :
  get_corrected_sky_position ra t_event t_ref = Ok r →
  r = NaN ∨ in_closed_turn r = true.
Proof.
  intros [x ->]%corrected_sky_position_is_rem.
  apply float_rem_two_pi_range.
Qed.

(** C4: with the event at the reference time the correction is zero
    and the function returns [ra % (2 * np.pi)]. *)
Theorem corrected_sky_position_same_time (ra t : float) (T : time) (g : float) :
  Time t "gps" "utc" = Ok T →
  sidereal_time T "apparent" "greenwich" = Ok g →
  is_finite g = true →
  get_corrected_sky_position ra t t = Ok (float_rem ra two_pi).
Proof.
  intros HT Hg Hfin.
  rewrite (corrected_sky_position_formula_aux ra t t T T g g) by done.
  rewrite fsub_diag, angle_rad_zero, float_rem_fadd_zero by done.
  reflexivity.
Qed.

(** A negative right ascension of magnitude [2^-60], with the event at
    the reference time, comes back as [2 * np.pi] itself. *)
Lemma tiny_negative_gives_two_pi (t : float) (T : time) (g : float) :
  Time t "gps" "utc" = Ok T →
  sidereal_time T "apparent" "greenwich" = Ok g →
  is_finite g = true →
  get_corrected_sky_position Standin.tiny_negative t t = Ok two_pi.
Proof.
  intros HT Hg Hfin.
  rewrite (corrected_sky_position_formula_aux _ t t T T g g) by done.
  rewrite fsub_diag, angle_rad_zero, float_rem_fadd_zero by done.
  assert (Hrem : float_rem Standin.tiny_negative two_pi = two_pi)
    by (vm_compute; reflexivity).
  exact (f_equal Ok Hrem).
Qed.
End sky_position.

(** C2 on the clock stand-in, seven radians ten seconds after the
    reference time. *)
Lemma corrected_sky_position_formula_witness :
  let t_event := fadd t_ref_default (of_Z 10) in
  let g_event := float_rem t_event (of_Z 24) in
  let g_ref := float_rem t_ref_default (of_Z 24) in
  (@Time Standin.astropy t_ref_default "gps" "utc" = Ok t_ref_default
   ∧ @Time Standin.astropy t_event "gps" "utc" = Ok t_event
   ∧ @sidereal_time Standin.astropy t_event "apparent" "greenwich" = Ok g_event
   ∧ @sidereal_time Standin.astropy t_ref_default "apparent" "greenwich"
     = Ok g_ref)
  ∧ @get_corrected_sky_position Standin.astropy (of_Z 7) t_event t_ref_default
    = Ok (float_rem (fadd (of_Z 7) (angle_rad (fsub g_event g_ref))) two_pi).
Proof.
  intros t_event g_event g_ref. split; [by repeat split|].
  apply (@corrected_sky_position_formula Standin.astropy (of_Z 7) t_event
           t_ref_default t_ref_default t_event g_event g_ref);
    reflexivity.
Defined.

(** C3 as stated fails: on the clock stand-in, and with any sidereal time
    that is finite, [ra = -2^-60] at the reference time returns
    [2 * np.pi], which is not below [2 * np.pi]. *)
Lemma corrected_sky_position_not_half_open :
  @get_corrected_sky_position Standin.astropy Standin.tiny_negative
     t_ref_default t_ref_default = Ok two_pi
  ∧ in_half_open_turn two_pi = false.
Proof. split; vm_compute; reflexivity. Qed.

Lemma corrected_sky_position_range_witness :
  @get_corrected_sky_position Standin.astropy Standin.tiny_negative
     t_ref_default t_ref_default = Ok two_pi
  ∧ (two_pi = NaN ∨ in_closed_turn two_pi = true).
Proof.
  assert (Hrun : @get_corrected_sky_position Standin.astropy
                   Standin.tiny_negative t_ref_default t_ref_default
                 = Ok two_pi) by (vm_compute; reflexivity).
  exact (conj Hrun
           (@corrected_sky_position_range Standin.astropy
              Standin.tiny_negative t_ref_default t_ref_default two_pi Hrun)).
Defined.

Lemma corrected_sky_position_same_time_witness :
  let g := float_rem t_ref_default (of_Z 24) in
  (@Time Standin.astropy t_ref_default "gps" "utc" = Ok t_ref_default
   ∧ @sidereal_time Standin.astropy t_ref_default "apparent" "greenwich" = Ok g
   ∧ is_finite g = true)
  ∧ @get_corrected_sky_position Standin.astropy (of_Z 7)
      t_ref_default t_ref_default = Ok (float_rem (of_Z 7) two_pi).
Proof.
  intros g. split; [repeat split; vm_compute; reflexivity|].
  apply (@corrected_sky_position_same_time Standin.astropy (of_Z 7)
           t_ref_default t_ref_default g);
    [reflexivity | reflexivity | vm_compute; reflexivity].
Defined.

(** ** The domain converter *)

Section converter.
Context `{SignalProcessing, Domains}.
Implicit Types (raw : raw_data) (dom : domain) (data : domain_data).
Implicit Types (settings kwargs : gmap string value).

Lemma convert_strain_eq settings dom window det s data :
  convert_strain settings dom window (det, s) data
  = (arr ← strain_to_domain settings dom window s;
     Ok {| waveform := <[det := arr]> (waveform data); asds := asds data |}).
Proof. reflexivity. Qed.

Lemma convert_psd_eq dom det psd data :
  convert_psd dom (det, psd) data
  = (asd ← psd_to_asd dom psd;
     Ok {| waveform := waveform data; asds := <[det := asd]> (asds data) |}).
Proof. reflexivity. Qed.

Lemma strain_loop_asds settings dom window items data data' :
  for_each items (convert_strain settings dom window) data = Ok data' →
  asds data' = asds data.
Proof.
  revert data. induction items as [|[det s] items IH]; intros data.
  - by intros [= ->].
  - cbn [for_each]. rewrite convert_strain_eq.
    destruct (strain_to_domain settings dom window s) as [arr|];
      cbn [mbind result_bind]; [|done].
    intros Hrest. by rewrite (IH _ Hrest).
Qed.

Lemma strain_loop_returns settings dom window items data :
  (∀ det s, (det, s) ∈ items →
     is_Ok (strain_to_domain settings dom window s)) →
  is_Ok (for_each items (convert_strain settings dom window) data).
Proof.
  revert data. induction items as [|[det s] items IH]; intros data Hok.
  - by eexists.
  - cbn [for_each]. rewrite convert_strain_eq.
    destruct (Hok det s) as [arr ->]; [left|].
    cbn [mbind result_bind]. apply IH. intros d' s' ?. apply (Hok d' s').
    by right.
Qed.

Lemma psd_loop_returns dom items data :
  (∀ det psd, (det, psd) ∈ items → is_Ok (psd_to_asd dom psd)) →
  is_Ok (for_each items (convert_psd dom) data).
Proof.
  revert data. induction items as [|[det psd] items IH]; intros data Hok.
  - by eexists.
  - cbn [for_each]. rewrite convert_psd_eq.
    destruct (Hok det psd) as [arr Harr]; [left|].
    rewrite Harr. cbn [mbind result_bind]. apply IH. intros d' s' ?. apply (Hok d' s').
    by right.
Qed.

(** After the PSD loop every visited detector holds what [update_data]
    returned for it, and the other entries are as before. *)
Lemma psd_loop_asds dom items data data' :
  NoDup items.*1 →
  for_each items (convert_psd dom) data = Ok data' →
  ∀ det,
    (∀ psd, (det, psd) ∈ items →
       ∃ asd, psd_to_asd dom psd = Ok asd ∧ asds data' !! det = Some asd)
    ∧ (det ∉ items.*1 → asds data' !! det = asds data !! det).
Proof.
  revert data. induction items as [|[k x] items IH]; intros data Hnd.
  - intros [= ->] det. split; [|done]. by intros psd ?%elem_of_nil.
  - apply NoDup_cons in Hnd as [Hk Hnd].
    cbn [for_each]. rewrite convert_psd_eq.
    destruct (psd_to_asd dom x) as [a|] eqn:Ha;
      cbn [mbind result_bind]; [|done].
    intros Hrest det.
    destruct (IH _ Hnd Hrest det) as [Hin Hout]. split.
    + intros psd [[= -> ->]|Hmem]%elem_of_cons.
      * exists a. split; [done|]. rewrite (proj2 (IH _ Hnd Hrest k) Hk).
        cbn. apply lookup_insert_eq.
      * by apply Hin.
    + intros Hnot. cbn in Hnot. apply not_elem_of_cons in Hnot as [Hne Hnot].
      rewrite (Hout Hnot). cbn. by apply lookup_insert_ne.
Qed.

(** [data_to_domain] on a [FrequencyDomain] object: it returns when
    the window, the strain conversions and the [update_data] calls of
    the PSD loop do, and then [asds] holds, for every detector of the
    PSD section, what [update_data] returned for the square roots with
    the floor [1.0], and nothing else. *)
Lemma data_to_domain_frequency_domain
    raw settings dom kwargs (window_spec : value) (window : list float) :
  type_of dom = FrequencyDomain →
  kwargs !! "window" = Some window_spec →
  get_window window_spec = Ok window →
  (∀ det s, raw_strain raw !! det = Some s →
     is_Ok (strain_to_domain settings dom window s)) →
  (∀ det psd, raw_psd raw !! det = Some psd → is_Ok (psd_to_asd dom psd)) →
  ∃ data,
    data_to_domain raw settings dom kwargs = Ok data
    ∧ ∀ det,
        match raw_psd raw !! det with
        | Some psd =>
            ∃ asd, psd_to_asd dom psd = Ok asd ∧ asds data !! det = Some asd
        | None => asds data !! det = None
        end.
Proof.
  intros Hty Hkw Hwin Hstrain Hpsd. unfold data_to_domain.
  rewrite bool_decide_eq_true_2 by done.
  unfold dict_getitem. rewrite Hkw. cbn [mbind result_bind].
  rewrite Hwin. cbn [mbind result_bind].
  destruct (strain_loop_returns settings dom window
              (map_to_list (raw_strain raw))
              {| waveform := ∅; asds := ∅ |}) as [data1 Hloop1].
  { intros det s ?%elem_of_map_to_list. eauto. }
  rewrite Hloop1. cbn [mbind result_bind].
  destruct (psd_loop_returns dom (map_to_list (raw_psd raw)) data1)
    as [data2 Hloop2].
  { intros det psd ?%elem_of_map_to_list. eauto. }
  rewrite Hloop2. cbn [mbind result_bind]. exists data2. split; [done|].
  intros det.
  destruct (psd_loop_asds dom _ _ _ (NoDup_fst_map_to_list _) Hloop2 det)
    as [Hin Hout].
  destruct (raw_psd raw !! det) as [psd|] eqn:Hdet.
  - apply Hin. by apply elem_of_map_to_list.
  - rewrite Hout.
    + rewrite (strain_loop_asds _ _ _ _ _ _ Hloop1). apply lookup_empty.
    + intros ((k & x) & -> & Hmem%elem_of_map_to_list)%list_elem_of_fmap.
      cbn in Hdet. congruence.
Qed.

(** C10: in a frequency-domain conversion the floor handed to
    [update_data] for every PSD is the constant [1.0], whatever the
    settings and the keyword arguments hold: the conversion returns as
    soon as those calls do, and [asds] holds their results. *)
Theorem asd_floor_is_constant_one
    raw settings dom kwargs (window_spec : value) (window : list float) :
  type_of dom = FrequencyDomain →
  kwargs !! "window" = Some window_spec →
  get_window window_spec = Ok window →
  (∀ det s, raw_strain raw !! det = Some s →
     is_Ok (strain_to_domain settings dom window s)) →
  (∀ det psd, raw_psd raw !! det = Some psd →
     is_Ok (update_data dom (RealArray (array_pow_half psd))
              (Some (Fin false (2 ^ 1074))))) →
  ∃ data,
    data_to_domain raw settings dom kwargs = Ok data
    ∧ ∀ det psd, raw_psd raw !! det = Some psd →
        ∃ asd,
          update_data dom (RealArray (array_pow_half psd))
            (Some (Fin false (2 ^ 1074))) = Ok asd
          ∧ asds data !! det = Some asd.
Proof.
  rewrite <- one_is_1. fold (psd_to_asd dom).
  intros Hty Hkw Hwin Hstrain Hpsd.
  destruct (data_to_domain_frequency_domain raw settings dom kwargs
              window_spec window Hty Hkw Hwin Hstrain Hpsd)
    as (data & Hrun & Hasds).
  exists data. split; [exact Hrun|]. intros det psd Hdet.
  specialize (Hasds det). by rewrite Hdet in Hasds.
Qed.

(** The branch for any other type. *)
Lemma data_to_domain_other_type raw settings dom kwargs :
  type_of dom ≠ FrequencyDomain →
  data_to_domain raw settings dom kwargs
  = Raise (NotImplementedError
             ("Unknown domain type " +:+ class_repr (type_of dom))).
Proof.
  intros Hty. unfold data_to_domain. by rewrite bool_decide_eq_false_2.
Qed.

(** C9: the dispatch is on the exact type.  An object of a strict
    subclass of [FrequencyDomain] is an instance of it, and still the
    converter raises [NotImplementedError]. *)
Theorem subclass_instance_is_rejected raw settings dom kwargs :
  issubclass (type_of dom) FrequencyDomain = true →
  type_of dom ≠ FrequencyDomain →
  isinstance dom FrequencyDomain = true
  ∧ data_to_domain raw settings dom kwargs
    = Raise (NotImplementedError
               ("Unknown domain type " +:+ class_repr (type_of dom))).
Proof.
  intros Hsub Hne. split; [exact Hsub|].
  by apply data_to_domain_other_type.
Qed.
End converter.

(** ** The settings parser *)

Section parser.
Context `{Builtins}.

(** C8: for metadata that declares the frequency domain the parser
    returns the flat settings: window, detectors and sample rate as the
    training-data section holds them (the rate is the window's [f_s]),
    and the window's [T] as time segment. *)
Theorem parse_settings_frequency_domain
    (model_metadata time_psd time_buffer : value)
    (train_settings data_settings window detectors T f_s : value) :
  metadata_domain_type model_metadata = Ok (VStr "FrequencyDomain") →
  py_getitem model_metadata "train_settings" = Ok train_settings →
  py_getitem train_settings "data" = Ok data_settings →
  py_getitem data_settings "window" = Ok window →
  py_getitem data_settings "detectors" = Ok detectors →
  py_getitem window "T" = Ok T →
  py_getitem window "f_s" = Ok f_s →
  ∃ settings,
    parse_settings_for_raw_data model_metadata time_psd time_buffer
    = Ok settings
    ∧ settings !! "window" = Some window
    ∧ settings !! "detectors" = Some detectors
    ∧ settings !! "f_s" = Some f_s
    ∧ settings !! "time_segment" = Some T
    ∧ settings !! "time_psd" = Some time_psd
    ∧ settings !! "time_buffer" = Some time_buffer
    ∧ dom settings
      = list_to_set ["window"; "detectors"; "time_segment"; "time_psd";
                     "time_buffer"; "f_s"].
Proof.
  intros Hkind Hts Hdata Hwin Hdet HT Hfs.
  unfold parse_settings_for_raw_data. rewrite Hkind.
  cbn [mbind result_bind py_eq_str].
  rewrite bool_decide_eq_true_2 by done.
  rewrite Hts. cbn [mbind result_bind]. rewrite Hdata.
  cbn [mbind result_bind]. rewrite Hwin. cbn [mbind result_bind].
  rewrite Hdet. cbn [mbind result_bind]. rewrite HT.
  cbn [mbind result_bind]. rewrite Hfs. cbn [mbind result_bind].
  eexists. split; [reflexivity|].
  split_and!; [by simplify_map_eq..|].
  rewrite !dom_insert_L, dom_empty_L. set_solver.
Qed.

(** The parser on any other declared kind. *)
Lemma parse_settings_other_kind
    (model_metadata time_psd time_buffer kind : value) :
  metadata_domain_type model_metadata = Ok kind →
  kind ≠ VStr "FrequencyDomain" →
  parse_settings_for_raw_data model_metadata time_psd time_buffer
  = Raise (NotImplementedError
             ("Unknown domain type " +:+ format_value kind)).
Proof.
  intros Hkind Hne. unfold parse_settings_for_raw_data. rewrite Hkind.
  cbn [mbind result_bind].
  destruct kind as [| | | |s| |]; try reflexivity.
  cbn [py_eq_str]. rewrite bool_decide_eq_false_2; [reflexivity|].
  congruence.
Qed.
End parser.

(** ** Unsupported domain kinds *)

Section unsupported.
Context `{Builtins, SignalProcessing, Domains, Storage, Network}.

(** C5: when the declared domain kind is not ["FrequencyDomain"] the
    parser raises [NotImplementedError] naming it, and
    [get_domain_data] stops there with the world untouched; when the
    domain object's type is not [FrequencyDomain] the converter raises
    [NotImplementedError] naming the type, and returns no mapping. *)
Theorem unsupported_domain_kind_raises
    (model_metadata time_psd time_buffer kind : value)
    (time_event : float) (event_dataset : option string) (w : world)
    (raw : raw_data) (settings kwargs : gmap string value) (dom : domain) :
  metadata_domain_type model_metadata = Ok kind →
  kind ≠ VStr "FrequencyDomain" →
  type_of dom ≠ FrequencyDomain →
  parse_settings_for_raw_data model_metadata time_psd time_buffer
  = Raise (NotImplementedError
             ("Unknown domain type " +:+ format_value kind))
  ∧ get_domain_data model_metadata time_event time_psd time_buffer
      event_dataset w
    = (Raise (NotImplementedError
                ("Unknown domain type " +:+ format_value kind)), w)
  ∧ data_to_domain raw settings dom kwargs
    = Raise (NotImplementedError
               ("Unknown domain type " +:+ class_repr (type_of dom)))
  ∧ lift (data_to_domain raw settings dom kwargs) w
    = (Raise (NotImplementedError
                ("Unknown domain type " +:+ class_repr (type_of dom))), w).
Proof.
  intros Hkind Hne Hty.
  pose proof (parse_settings_other_kind model_metadata time_psd
                time_buffer kind Hkind Hne) as Hparse.
  pose proof (data_to_domain_other_type raw settings dom kwargs Hty)
    as Hconv.
  repeat split; [exact Hparse| |exact Hconv|].
  - unfold get_domain_data, mbind at 1, world_bind, lift.
    by rewrite Hparse.
  - unfold lift. by rewrite Hconv.
Qed.
End unsupported.

(** ** The raw data loader *)

Section loader.
Context `{Builtins, Storage, Network}.
Implicit Types (settings : gmap string value) (w : world).

(** A hit of the lookup: the payload is returned; the file system and
    the acquisitions stay, one line is printed. *)
Lemma load_raw_data_hit (time_event : float) settings (file : string) w
    (data : raw_data) :
  load_data_from_file file (py_str (VFloat time_event)) settings (fs w)
  = Ok (Some data) →
  load_raw_data time_event settings (Some file) w
  = (Ok data,
     World (fs w) (acquisitions w)
       (stdout w ++ [found_line (py_str (VFloat time_event)) file])).
Proof.
  intros Hhit.
  unfold load_raw_data, mbind, world_bind, call_load_data_from_file.
  rewrite Hhit. reflexivity.
Qed.

(** A miss with a cache handle: one acquisition; when it returns, the
    data goes to the file in mode ["a"]. *)
Lemma load_raw_data_miss (time_event : float) settings (file : string) w :
  load_data_from_file file (py_str (VFloat time_event)) settings (fs w)
  = Ok None →
  let event := py_str (VFloat time_event) in
  let acquired := acquisitions w ++ [(time_event, settings)] in
  load_raw_data time_event settings (Some file) w
  = match download_raw_data time_event settings (acquisitions w) with
    | Raise e =>
        (Raise e,
         World (fs w) acquired (stdout w ++ [downloading_line event]))
    | Ok data =>
        let '(r, fs') :=
          to_file (cache_dataset event data settings) file "a" (fs w) in
        (match r with Ok _ => Ok data | Raise e => Raise e end,
         World fs' acquired
           (stdout w ++ [downloading_line event]
              ++ [saving_line event file]))
    end.
Proof.
  intros Hmiss event acquired.
  unfold load_raw_data, mbind, world_bind, call_load_data_from_file.
  rewrite Hmiss. cbn [mret world_ret print call_download_raw_data fs
    acquisitions stdout].
  destruct (download_raw_data _ _ _) as [data|e]; [|reflexivity].
  unfold call_to_file. cbn [fs acquisitions stdout].
  fold event. unfold cache_dataset.
  destruct (to_file _ file "a" (fs w)) as [[[]|e] fs'];
    rewrite <- ?(assoc_L (++)); reflexivity.
Qed.

(** C6: with a cache handle and a lookup that returns stored data, the
    loader returns that payload and makes no acquisition and no write:
    only the printed line is new. *)
Theorem cache_hit_returns_payload (time_event : float) settings
    (file : string) w (data : raw_data) :
  load_data_from_file file (py_str (VFloat time_event)) settings (fs w)
  = Ok (Some data) →
  ∃ w',
    load_raw_data time_event settings (Some file) w = (Ok data, w')
    ∧ acquisitions w' = acquisitions w
    ∧ fs w' = fs w.
Proof.
  intros Hhit. eexists. split; [by apply load_raw_data_hit|]. done.
Qed.
End loader.

(** ** The loader on the cached dataset of the specification *)

Section cached_loader.
Context `{Builtins, Network}.
Variable compatible : gmap string value → gmap string value → bool.

Abbreviation cache := (spec_storage compatible).
Implicit Types (settings : gmap string value) (w : @world cache).

Lemma dataset_entries_event (event : string) (data : raw_data) settings :
  event ≠ "settings" →
  dataset_entries (cache_dataset event data settings)
  = [CacheEntry event data settings].
Proof.
  intros Hne. unfold dataset_entries, cache_dataset. cbn.
  rewrite lookup_insert_eq, lookup_insert_ne by done.
  by rewrite lookup_singleton_eq.
Qed.

Lemma find_app_None {A} (p : A → bool) (l1 l2 : list A) :
  find p l1 = None → find p (l1 ++ l2) = find p l2.
Proof.
  induction l1 as [|x l1 IH]; [done|]. cbn. by destruct (p x).
Qed.

(** C7: two calls with the same event, settings and cache handle make
    at most one acquisition, and when the first call returns a payload
    the second returns the same payload from the cache, without an
    acquisition and without a write. *)
Theorem second_load_comes_from_cache (time_event : float) settings
    (file : string) w :
  compatible settings settings = true →
  py_str (VFloat time_event) ≠ "settings" →
  let load := @load_raw_data _ cache _ time_event settings (Some file) in
  (∀ r w2, (d1 ← load; d2 ← load; mret (d1, d2)) w = (r, w2) →
     length (acquisitions w2) ≤ S (length (acquisitions w)))
  ∧ (∀ d1 w1, load w = (Ok d1, w1) →
       @load_data_from_file cache file (py_str (VFloat time_event))
         settings (fs w1) = Ok (Some d1)
       ∧ ∃ w2, load w1 = (Ok d1, w2)
               ∧ acquisitions w2 = acquisitions w1
               ∧ fs w2 = fs w1).
Proof.
  intros Hrefl Hkey load.
  assert (Hsecond : ∀ d1 w1, load w = (Ok d1, w1) →
    length (acquisitions w1) ≤ S (length (acquisitions w))
    ∧ @load_data_from_file cache file (py_str (VFloat time_event))
        settings (fs w1) = Ok (Some d1)).
  { intros d1 w1 Hfirst. subst load.
    destruct (@load_data_from_file cache file (py_str (VFloat time_event))
                settings (fs w)) as [[d|]|e] eqn:Hlook; [| |done].
    - rewrite (load_raw_data_hit _ _ _ _ _ Hlook) in Hfirst.
      injection Hfirst as <- <-. cbn. split; [lia|done].
    - rewrite (load_raw_data_miss _ _ _ _ Hlook) in Hfirst.
      destruct (download_raw_data _ _ _) as [data|e]; [|done].
      cbn [to_file spec_storage] in Hfirst. unfold spec_to_file in Hfirst.
      rewrite bool_decide_eq_true_2 in Hfirst by done.
      injection Hfirst as <- <-. cbn [acquisitions fs]. split.
      { rewrite length_app. cbn. lia. }
      cbn [load_data_from_file spec_storage] in *.
      unfold spec_load_data_from_file in *. rewrite lookup_insert_eq.
      cbn [default]. rewrite dataset_entries_event by done.
      injection Hlook as Hlook. apply fmap_None in Hlook.
      unfold id. rewrite find_app_None by done. cbn.
      rewrite bool_decide_eq_true_2 by done. by rewrite Hrefl. }
  split.
  - intros r w2. unfold mbind at 1, world_bind at 1.
    destruct (load w) as [[d1|e] w1] eqn:Hfirst.
    + destruct (Hsecond d1 w1 eq_refl) as [Hlen Hlook].
      unfold mbind at 1, world_bind at 1. subst load.
      rewrite (load_raw_data_hit _ _ _ _ _ Hlook).
      intros [= <- <-]. done.
    + intros [= <- <-]. subst load.
      destruct (@load_data_from_file cache file (py_str (VFloat time_event))
                  settings (fs w)) as [[d|]|e'] eqn:Hlook; [| |done].
      * by rewrite (load_raw_data_hit _ _ _ _ _ Hlook) in Hfirst.
      * rewrite (load_raw_data_miss _ _ _ _ Hlook) in Hfirst.
        destruct (download_raw_data _ _ _) as [data|e''].
        { cbn [to_file spec_storage] in Hfirst. unfold spec_to_file in Hfirst.
          by rewrite bool_decide_eq_true_2 in Hfirst. }
        injection Hfirst as <- <-. cbn. rewrite length_app. cbn. lia.
  - intros d1 w1 Hfirst. destruct (Hsecond d1 w1 Hfirst) as [_ Hlook].
    split; [exact Hlook|]. subst load.
    eexists. split; [by apply load_raw_data_hit|]. done.
Qed.
End cached_loader.

(** ** The converter on the frequency domain of the specification *)

Section spec_converter.
Context `{SignalProcessing}.
Variables (frequency_domain : pyclass) (build : value → result spec_domain).

Abbreviation domains := (spec_domains frequency_domain build).

(** What the specification's [update_data] makes of the square roots
    of a PSD. *)
Lemma spec_psd_to_asd (dom : spec_domain) (psd : list float) :
  @psd_to_asd domains dom psd
  = Ok (RealArray
          (floor_clamp one <$> resize (sd_bins dom) zero (fsqrt <$> psd))).
Proof. reflexivity. Qed.

(** C1: on a frequency-domain object the converter returns (when the
    window and the strain conversions do), and every ASD entry that has
    a PSD entry is the square root of that entry, replaced by the
    minimum [1.0] exactly when the root is below it. *)
Theorem asd_is_floored_square_root
    (raw : raw_data) (settings kwargs : gmap string value)
    (dom : spec_domain) (window_spec : value) (window : list float) :
  sd_class dom = frequency_domain →
  kwargs !! "window" = Some window_spec →
  get_window window_spec = Ok window →
  (∀ det s, raw_strain raw !! det = Some s →
     is_Ok (@strain_to_domain _ domains settings dom window s)) →
  ∃ data,
    @data_to_domain _ domains raw settings dom kwargs = Ok data
    ∧ ∀ det psd, raw_psd raw !! det = Some psd →
        ∃ asd,
          asds data !! det = Some (RealArray asd)
          ∧ length asd = sd_bins dom
          ∧ ∀ i x, psd !! i = Some x → i < sd_bins dom →
              asd !! i
              = Some (if fltb (fsqrt x) one then one else fsqrt x).
Proof.
  intros Hty Hkw Hwin Hstrain.
  destruct (@data_to_domain_frequency_domain _ domains raw settings dom
              kwargs window_spec window Hty Hkw Hwin Hstrain)
    as (data & Hrun & Hasds).
  { intros det psd _. rewrite spec_psd_to_asd. by eexists. }
  exists data. split; [exact Hrun|]. intros det psd Hdet.
  specialize (Hasds det). rewrite Hdet in Hasds.
  destruct Hasds as (asd & Hcall & Hlook).
  rewrite spec_psd_to_asd in Hcall.
  eexists. split; [rewrite Hlook; f_equal; symmetry;
                   exact (f_equal (λ o, match o with
                                        | Ok v => v
                                        | Raise _ => asd
                                        end) Hcall)|].
  split; [by rewrite length_fmap, length_resize|].
  intros i x Hx Hi.
  rewrite list_lookup_fmap, lookup_resize.
  - by rewrite list_lookup_fmap, Hx.
  - done.
  - rewrite length_fmap. by eapply lookup_lt_Some.
Qed.
End spec_converter.

(** ** The theorems on concrete inputs *)

(** Closed equations are settled by evaluation. *)
Ltac by_evaluation :=
  lazymatch goal with
  | |- ?a = _ => vm_cast_no_check (@eq_refl _ a)
  end.

(** The converter of the specification on the stand-in event: the PSD
    [4, 0.25, 9] gives the ASD [2, 1, 3], padded to four bins. *)
Example standin_asds :
  asds <$> @data_to_domain Standin.signal Standin.domains Standin.event_data
             Standin.settings Standin.frequency_domain Standin.kwargs
  = Ok {[ "H1" := RealArray [of_Z 2; one; of_Z 3; one] ]}.
Proof. vm_compute. reflexivity. Qed.

(** With the probe the ASD is the floor that was passed: [1.0]. *)
Example probe_sees_one :
  asds <$> @data_to_domain Standin.signal Standin.probe_domains
             Standin.event_data Standin.settings Standin.frequency_domain
             Standin.kwargs
  = Ok {[ "H1" := RealArray [Fin false (2 ^ 1074)] ]}.
Proof. vm_compute. reflexivity. Qed.

Lemma asd_is_floored_square_root_witness :
  (sd_class Standin.frequency_domain = Standin.frequency_domain_class
   ∧ Standin.kwargs !! "window" = Some Standin.window_settings
   ∧ @get_window Standin.signal Standin.window_settings = Ok []
   ∧ ∀ det s, raw_strain Standin.event_data !! det = Some s →
       is_Ok (@strain_to_domain Standin.signal Standin.domains
                Standin.settings Standin.frequency_domain [] s))
  ∧ ∃ data,
      @data_to_domain Standin.signal Standin.domains Standin.event_data
        Standin.settings Standin.frequency_domain Standin.kwargs = Ok data
      ∧ ∀ det psd, raw_psd Standin.event_data !! det = Some psd →
          ∃ asd,
            asds data !! det = Some (RealArray asd)
            ∧ length asd = sd_bins Standin.frequency_domain
            ∧ ∀ i x, psd !! i = Some x →
                i < sd_bins Standin.frequency_domain →
                asd !! i
                = Some (if fltb (fsqrt x) one then one else fsqrt x).
Proof.
  assert (Hclass : sd_class Standin.frequency_domain
                   = Standin.frequency_domain_class) by reflexivity.
  assert (Hkw : Standin.kwargs !! "window" = Some Standin.window_settings)
    by (vm_compute; reflexivity).
  assert (Hwin : @get_window Standin.signal Standin.window_settings = Ok [])
    by reflexivity.
  assert (Hstrain : ∀ det s, raw_strain Standin.event_data !! det = Some s →
            is_Ok (@strain_to_domain Standin.signal Standin.domains
                     Standin.settings Standin.frequency_domain [] s)).
  { intros det s _. eexists. reflexivity. }
  exact (conj (conj Hclass (conj Hkw (conj Hwin Hstrain)))
           (@asd_is_floored_square_root Standin.signal
              Standin.frequency_domain_class _ Standin.event_data
              Standin.settings Standin.kwargs Standin.frequency_domain
              Standin.window_settings [] Hclass Hkw Hwin Hstrain)).
Defined.

Lemma asd_floor_is_constant_one_witness :
  (@type_of Standin.probe_domains Standin.frequency_domain
   = @FrequencyDomain Standin.probe_domains
   ∧ Standin.kwargs !! "window" = Some Standin.window_settings
   ∧ @get_window Standin.signal Standin.window_settings = Ok []
   ∧ (∀ det s, raw_strain Standin.event_data !! det = Some s →
        is_Ok (@strain_to_domain Standin.signal Standin.probe_domains
                 Standin.settings Standin.frequency_domain [] s))
   ∧ (∀ det psd, raw_psd Standin.event_data !! det = Some psd →
        is_Ok (@update_data Standin.probe_domains Standin.frequency_domain
                 (RealArray (array_pow_half psd))
                 (Some (Fin false (2 ^ 1074))))))
  ∧ ∃ data,
      @data_to_domain Standin.signal Standin.probe_domains
        Standin.event_data Standin.settings Standin.frequency_domain
        Standin.kwargs = Ok data
      ∧ ∀ det psd, raw_psd Standin.event_data !! det = Some psd →
          ∃ asd,
            @update_data Standin.probe_domains Standin.frequency_domain
              (RealArray (array_pow_half psd)) (Some (Fin false (2 ^ 1074)))
            = Ok asd
            ∧ asds data !! det = Some asd.
Proof.
  assert (Hclass : @type_of Standin.probe_domains Standin.frequency_domain
                   = @FrequencyDomain Standin.probe_domains) by reflexivity.
  assert (Hkw : Standin.kwargs !! "window" = Some Standin.window_settings)
    by (vm_compute; reflexivity).
  assert (Hwin : @get_window Standin.signal Standin.window_settings = Ok [])
    by reflexivity.
  assert (Hstrain : ∀ det s, raw_strain Standin.event_data !! det = Some s →
            is_Ok (@strain_to_domain Standin.signal Standin.probe_domains
                     Standin.settings Standin.frequency_domain [] s)).
  { intros det s _. eexists. reflexivity. }
  assert (Hpsd : ∀ det psd, raw_psd Standin.event_data !! det = Some psd →
            is_Ok (@update_data Standin.probe_domains
                     Standin.frequency_domain
                     (RealArray (array_pow_half psd))
                     (Some (Fin false (2 ^ 1074))))).
  { intros det psd _. eexists. reflexivity. }
  exact (conj (conj Hclass (conj Hkw (conj Hwin (conj Hstrain Hpsd))))
           (@asd_floor_is_constant_one Standin.signal Standin.probe_domains
              Standin.event_data Standin.settings Standin.frequency_domain
              Standin.kwargs Standin.window_settings []
              Hclass Hkw Hwin Hstrain Hpsd)).
Defined.

Lemma subclass_instance_is_rejected_witness :
  (issubclass (@type_of Standin.domains Standin.derived_domain)
     (@FrequencyDomain Standin.domains) = true
   ∧ @type_of Standin.domains Standin.derived_domain
     ≠ @FrequencyDomain Standin.domains)
  ∧ @isinstance Standin.domains Standin.derived_domain
      (@FrequencyDomain Standin.domains) = true
  ∧ @data_to_domain Standin.signal Standin.domains Standin.event_data
      Standin.settings Standin.derived_domain Standin.kwargs
    = Raise (NotImplementedError
               "Unknown domain type <class 'user.BandFrequencyDomain'>").
Proof.
  assert (Hsub : issubclass (@type_of Standin.domains Standin.derived_domain)
                   (@FrequencyDomain Standin.domains) = true)
    by (vm_compute; reflexivity).
  assert (Hne : @type_of Standin.domains Standin.derived_domain
                ≠ @FrequencyDomain Standin.domains) by discriminate.
  exact (conj (conj Hsub Hne)
           (@subclass_instance_is_rejected Standin.signal Standin.domains
              Standin.event_data Standin.settings Standin.derived_domain
              Standin.kwargs Hsub Hne)).
Defined.

Lemma parse_settings_frequency_domain_witness :
  let metadata := Standin.metadata "FrequencyDomain" in
  (metadata_domain_type metadata = Ok (VStr "FrequencyDomain")
   ∧ py_getitem metadata "train_settings" = Ok Standin.train_section
   ∧ py_getitem Standin.train_section "data" = Ok Standin.data_section
   ∧ py_getitem Standin.data_section "window" = Ok Standin.window_settings
   ∧ py_getitem Standin.data_section "detectors"
     = Ok (VList [VStr "H1"; VStr "L1"])
   ∧ py_getitem Standin.window_settings "T" = Ok (VFloat (of_Z 4))
   ∧ py_getitem Standin.window_settings "f_s" = Ok (VInt 4096))
  ∧ ∃ settings,
      @parse_settings_for_raw_data Standin.builtins metadata (VInt 1024)
        (VFloat (of_Z 2)) = Ok settings
      ∧ settings !! "window" = Some Standin.window_settings
      ∧ settings !! "detectors" = Some (VList [VStr "H1"; VStr "L1"])
      ∧ settings !! "f_s" = Some (VInt 4096)
      ∧ settings !! "time_segment" = Some (VFloat (of_Z 4))
      ∧ settings !! "time_psd" = Some (VInt 1024)
      ∧ settings !! "time_buffer" = Some (VFloat (of_Z 2))
      ∧ dom settings
        = list_to_set ["window"; "detectors"; "time_segment"; "time_psd";
                       "time_buffer"; "f_s"].
Proof.
  intros metadata.
  assert (H1 : metadata_domain_type metadata = Ok (VStr "FrequencyDomain"))
    by (vm_compute; reflexivity).
  assert (H2 : py_getitem metadata "train_settings" = Ok Standin.train_section)
    by (vm_compute; reflexivity).
  assert (H3 : py_getitem Standin.train_section "data"
               = Ok Standin.data_section) by (vm_compute; reflexivity).
  assert (H4 : py_getitem Standin.data_section "window"
               = Ok Standin.window_settings) by (vm_compute; reflexivity).
  assert (H5 : py_getitem Standin.data_section "detectors"
               = Ok (VList [VStr "H1"; VStr "L1"]))
    by (vm_compute; reflexivity).
  assert (H6 : py_getitem Standin.window_settings "T" = Ok (VFloat (of_Z 4)))
    by (vm_compute; reflexivity).
  assert (H7 : py_getitem Standin.window_settings "f_s" = Ok (VInt 4096))
    by (vm_compute; reflexivity).
  exact (conj (conj H1 (conj H2 (conj H3 (conj H4 (conj H5 (conj H6 H7))))))
           (@parse_settings_frequency_domain Standin.builtins metadata
              (VInt 1024) (VFloat (of_Z 2)) Standin.train_section
              Standin.data_section Standin.window_settings
              (VList [VStr "H1"; VStr "L1"]) (VFloat (of_Z 4)) (VInt 4096)
              H1 H2 H3 H4 H5 H6 H7)).
Defined.

(** The parser on the stand-in metadata returns the stand-in settings. *)
Example standin_parse :
  @parse_settings_for_raw_data Standin.builtins
    (Standin.metadata "FrequencyDomain") (VInt 1024) (VFloat (of_Z 2))
  = Ok Standin.settings.
Proof. by_evaluation. Qed.

Lemma unsupported_domain_kind_raises_witness :
  let metadata := Standin.metadata "TimeDomain" in
  (metadata_domain_type metadata = Ok (VStr "TimeDomain")
   ∧ VStr "TimeDomain" ≠ VStr "FrequencyDomain"
   ∧ @type_of Standin.domains Standin.derived_domain
     ≠ @FrequencyDomain Standin.domains)
  ∧ @parse_settings_for_raw_data Standin.builtins metadata (VInt 1024)
      (VFloat (of_Z 2))
    = Raise (NotImplementedError "Unknown domain type TimeDomain")
  ∧ @get_domain_data Standin.builtins Standin.signal Standin.domains
      Standin.storage Standin.network metadata t_ref_default (VInt 1024)
      (VFloat (of_Z 2)) (Some "events.hdf5") Standin.empty_world
    = (Raise (NotImplementedError "Unknown domain type TimeDomain"),
       Standin.empty_world)
  ∧ @data_to_domain Standin.signal Standin.domains Standin.event_data
      Standin.settings Standin.derived_domain Standin.kwargs
    = Raise (NotImplementedError
               "Unknown domain type <class 'user.BandFrequencyDomain'>")
  ∧ @lift Standin.storage _
      (@data_to_domain Standin.signal Standin.domains Standin.event_data
         Standin.settings Standin.derived_domain Standin.kwargs)
      Standin.empty_world
    = (Raise (NotImplementedError
                "Unknown domain type <class 'user.BandFrequencyDomain'>"),
       Standin.empty_world).
Proof.
  intros metadata.
  assert (H1 : metadata_domain_type metadata = Ok (VStr "TimeDomain"))
    by (vm_compute; reflexivity).
  assert (H2 : VStr "TimeDomain" ≠ VStr "FrequencyDomain") by discriminate.
  assert (H3 : @type_of Standin.domains Standin.derived_domain
               ≠ @FrequencyDomain Standin.domains) by discriminate.
  exact (conj (conj H1 (conj H2 H3))
           (@unsupported_domain_kind_raises Standin.builtins Standin.signal
              Standin.domains Standin.storage Standin.network metadata
              (VInt 1024) (VFloat (of_Z 2)) (VStr "TimeDomain")
              t_ref_default (Some "events.hdf5") Standin.empty_world
              Standin.event_data Standin.settings Standin.kwargs
              Standin.derived_domain H1 H2 H3)).
Defined.

Lemma cache_hit_returns_payload_witness :
  @load_data_from_file Standin.storage "events.hdf5"
    (@py_str Standin.builtins (VFloat t_ref_default)) Standin.settings
    (fs Standin.cached_world) = Ok (Some Standin.event_data)
  ∧ ∃ w',
      @load_raw_data Standin.builtins Standin.storage Standin.network
        t_ref_default Standin.settings (Some "events.hdf5")
        Standin.cached_world = (Ok Standin.event_data, w')
      ∧ acquisitions w' = acquisitions Standin.cached_world
      ∧ fs w' = fs Standin.cached_world.
Proof.
  assert (Hhit : @load_data_from_file Standin.storage "events.hdf5"
                   (@py_str Standin.builtins (VFloat t_ref_default))
                   Standin.settings (fs Standin.cached_world)
                 = Ok (Some Standin.event_data)) by (vm_compute; reflexivity).
  exact (conj Hhit
           (@cache_hit_returns_payload Standin.builtins Standin.storage
              Standin.network t_ref_default Standin.settings "events.hdf5"
              Standin.cached_world Standin.event_data Hhit)).
Defined.

(** Two loads from the empty world: one acquisition, the same payload
    twice, one entry in the file. *)
Example two_loads_one_acquisition :
  let load := @load_raw_data Standin.builtins Standin.storage Standin.network
                t_ref_default Standin.settings (Some "events.hdf5") in
  let run := (d1 ← load; d2 ← load; mret (d1, d2)) Standin.empty_world in
  run.1 = Ok (Standin.event_data, Standin.event_data)
  ∧ acquisitions run.2 = [(t_ref_default, Standin.settings)]
  ∧ fs run.2 = fs Standin.cached_world.
Proof. cbv zeta. split_and!; by_evaluation. Qed.

Lemma second_load_comes_from_cache_witness :
  let load := @load_raw_data Standin.builtins Standin.storage Standin.network
                t_ref_default Standin.settings (Some "events.hdf5") in
  (settings_equal Standin.settings Standin.settings = true
   ∧ @py_str Standin.builtins (VFloat t_ref_default) ≠ "settings")
  ∧ (∀ r w2,
       (d1 ← load; d2 ← load; mret (d1, d2)) Standin.empty_world = (r, w2) →
       length (acquisitions w2)
       ≤ S (length (acquisitions Standin.empty_world)))
  ∧ (∀ d1 w1, load Standin.empty_world = (Ok d1, w1) →
       @load_data_from_file Standin.storage "events.hdf5"
         (@py_str Standin.builtins (VFloat t_ref_default)) Standin.settings
         (fs w1) = Ok (Some d1)
       ∧ ∃ w2, load w1 = (Ok d1, w2)
               ∧ acquisitions w2 = acquisitions w1
               ∧ fs w2 = fs w1).
Proof.
  intros load.
  assert (Hrefl : settings_equal Standin.settings Standin.settings = true)
    by (vm_compute; reflexivity).
  assert (Hkey : @py_str Standin.builtins (VFloat t_ref_default) ≠ "settings")
    by (vm_compute; discriminate).
  exact (conj (conj Hrefl Hkey)
           (@second_load_comes_from_cache Standin.builtins Standin.network
              settings_equal t_ref_default Standin.settings "events.hdf5"
              Standin.empty_world Hrefl Hkey)).
Defined.

(* ===================================================================== *)
(** * Part III: further properties                                        *)
(* ===================================================================== *)

(** ** The loader: paths and invariants *)

Section loader_paths.
Context `{Builtins, Storage, Network}.
Implicit Types (settings : gmap string value) (w : world).

(** The call without a cache handle, unfolded. *)
Lemma load_raw_data_no_handle (time_event : float) settings w :
  load_raw_data time_event settings None w
  = (download_raw_data time_event settings (acquisitions w),
     World (fs w) (acquisitions w ++ [(time_event, settings)])
       (stdout w ++ [downloading_line (py_str (VFloat time_event))])).
Proof.
  unfold load_raw_data, mbind, world_bind.
  cbn [mret world_ret print call_download_raw_data fs acquisitions stdout].
  by destruct (download_raw_data _ _ _).
Qed.

(** A lookup that raises ends the call there. *)
Lemma load_raw_data_lookup_raises (time_event : float) settings
    (file : string) w (e : exn) :
  load_data_from_file file (py_str (VFloat time_event)) settings (fs w)
  = Raise e →
  load_raw_data time_event settings (Some file) w = (Raise e, w).
Proof.
  intros Hlook.
  unfold load_raw_data, mbind, world_bind, call_load_data_from_file.
  by rewrite Hlook.
Qed.

(** X1: without a cache handle every call makes exactly one acquisition,
    with the caller's time and settings, returns or raises what the
    download does, and leaves the file system as it is. *)
Theorem load_without_handle_downloads (time_event : float) settings w :
  let run := load_raw_data time_event settings None w in
  run.1 = download_raw_data time_event settings (acquisitions w)
  ∧ acquisitions run.2 = acquisitions w ++ [(time_event, settings)]
  ∧ fs run.2 = fs w.
Proof. intros run. subst run. by rewrite load_raw_data_no_handle. Qed.

(** X2: a call makes at most one acquisition, and only with its own
    arguments; the acquisitions made before and the lines printed before
    stay; and the file system changes only in a call that acquired. *)
Theorem load_acquires_at_most_once (time_event : float) settings
    (event_dataset : option string) w :
  let run := load_raw_data time_event settings event_dataset w in
  (acquisitions run.2 = acquisitions w
   ∨ acquisitions run.2 = acquisitions w ++ [(time_event, settings)])
  ∧ (∃ lines, stdout run.2 = stdout w ++ lines)
  ∧ (acquisitions run.2 = acquisitions w → fs run.2 = fs w).
Proof.
  intros run. subst run.
  assert (Hgrow : ∀ (l : list acquisition) x, l ++ [x] = l → False).
  { intros l x Heq. apply (f_equal length) in Heq.
    rewrite length_app in Heq. cbn in Heq. lia. }
  destruct event_dataset as [file|].
  - destruct (load_data_from_file file (py_str (VFloat time_event)) settings
                (fs w)) as [[data|]|e] eqn:Hlook.
    + rewrite (load_raw_data_hit _ _ _ _ _ Hlook). cbn.
      split_and!; [by left|by eexists|done].
    + rewrite (load_raw_data_miss _ _ _ _ Hlook).
      destruct (download_raw_data _ _ _) as [data|e].
      * destruct (to_file _ file "a" (fs w)) as [r fs'] eqn:Hwrite. cbn.
        split_and!; [by right|by eexists|]. by intros ?%Hgrow.
      * cbn. split_and!; [by right|by eexists|]. by intros ?%Hgrow.
    + rewrite (load_raw_data_lookup_raises _ _ _ _ _ Hlook). cbn.
      split_and!; [by left|by exists []; rewrite app_nil_r|done].
  - rewrite load_raw_data_no_handle. cbn.
    split_and!; [by right|by eexists|]. by intros ?%Hgrow.
Qed.

(** X3: when the lookup in the dataset file raises, the loader raises the
    same exception and does not fall back to a download: nothing is
    acquired, written or printed. *)
Theorem lookup_error_stops_the_load (time_event : float) settings
    (file : string) w (e : exn) :
  load_data_from_file file (py_str (VFloat time_event)) settings (fs w)
  = Raise e →
  load_raw_data time_event settings (Some file) w = (Raise e, w).
Proof. apply load_raw_data_lookup_raises. Qed.

(** X4: when the lookup finds nothing and the download raises, the loader
    raises the same exception and the dataset file is not written. *)
Theorem failed_download_writes_nothing (time_event : float) settings
    (file : string) w (e : exn) :
  load_data_from_file file (py_str (VFloat time_event)) settings (fs w)
  = Ok None →
  download_raw_data time_event settings (acquisitions w) = Raise e →
  ∃ w',
    load_raw_data time_event settings (Some file) w = (Raise e, w')
    ∧ fs w' = fs w
    ∧ acquisitions w' = acquisitions w ++ [(time_event, settings)].
Proof.
  intros Hlook Hdown. rewrite (load_raw_data_miss _ _ _ _ Hlook), Hdown.
  by eexists.
Qed.

(** X5: when the download returns but writing the dataset file raises,
    the loader raises that exception: the downloaded data is not
    returned, although the acquisition was made. *)
Theorem failed_write_loses_the_data (time_event : float) settings
    (file : string) w (data : raw_data) (e : exn) (fs' : FS) :
  load_data_from_file file (py_str (VFloat time_event)) settings (fs w)
  = Ok None →
  download_raw_data time_event settings (acquisitions w) = Ok data →
  to_file (cache_dataset (py_str (VFloat time_event)) data settings)
    file "a" (fs w) = (Raise e, fs') →
  ∃ w',
    load_raw_data time_event settings (Some file) w = (Raise e, w')
    ∧ acquisitions w' = acquisitions w ++ [(time_event, settings)].
Proof.
  intros Hlook Hdown Hwrite.
  rewrite (load_raw_data_miss _ _ _ _ Hlook), Hdown. cbn zeta.
  rewrite Hwrite. by eexists.
Qed.

(** X6: when the lookup finds nothing, the download returns and the write
    succeeds, the loader returns the downloaded data, and the file system
    is the one [to_file] made, in mode ["a"], of the dataset holding the
    data under the event key and the settings under ["settings"]. *)
Theorem miss_downloads_and_saves (time_event : float) settings
    (file : string) w (data : raw_data) (fs' : FS) :
  load_data_from_file file (py_str (VFloat time_event)) settings (fs w)
  = Ok None →
  download_raw_data time_event settings (acquisitions w) = Ok data →
  to_file {| dictionary :=
               <["settings" := ItemSettings settings]>
                 {[ py_str (VFloat time_event) := ItemData data ]};
             data_keys := [py_str (VFloat time_event)] |}
    file "a" (fs w) = (Ok (), fs') →
  ∃ w',
    load_raw_data time_event settings (Some file) w = (Ok data, w')
    ∧ fs w' = fs'
    ∧ acquisitions w' = acquisitions w ++ [(time_event, settings)].
Proof.
  intros Hlook Hdown Hwrite.
  rewrite (load_raw_data_miss _ _ _ _ Hlook), Hdown. cbn zeta.
  unfold cache_dataset. rewrite Hwrite. by eexists.
Qed.
End loader_paths.

Lemma lookup_error_stops_the_load_witness :
  @load_data_from_file Faulty.unreadable_storage "events.hdf5"
    (@py_str Standin.builtins (VFloat t_ref_default)) Standin.settings
    (fs Faulty.unreadable_world)
  = Raise (OtherError "OSError" "unable to open file")
  ∧ @load_raw_data Standin.builtins Faulty.unreadable_storage
      Standin.network t_ref_default Standin.settings (Some "events.hdf5")
      Faulty.unreadable_world
    = (Raise (OtherError "OSError" "unable to open file"),
       Faulty.unreadable_world).
Proof.
  assert (Hlook : @load_data_from_file Faulty.unreadable_storage "events.hdf5"
                    (@py_str Standin.builtins (VFloat t_ref_default))
                    Standin.settings (fs Faulty.unreadable_world)
                  = Raise (OtherError "OSError" "unable to open file"))
    by reflexivity.
  exact (conj Hlook
           (@lookup_error_stops_the_load Standin.builtins
              Faulty.unreadable_storage Standin.network t_ref_default
              Standin.settings "events.hdf5" Faulty.unreadable_world _ Hlook)).
Defined.

Lemma failed_download_writes_nothing_witness :
  (@load_data_from_file Standin.storage "events.hdf5"
     (@py_str Standin.builtins (VFloat t_ref_default)) Standin.settings
     (fs Standin.empty_world) = Ok None
   ∧ @download_raw_data Faulty.offline_network t_ref_default Standin.settings
       (acquisitions Standin.empty_world)
     = Raise (OtherError "ValueError" "cannot fetch data"))
  ∧ ∃ w',
      @load_raw_data Standin.builtins Standin.storage Faulty.offline_network
        t_ref_default Standin.settings (Some "events.hdf5")
        Standin.empty_world
      = (Raise (OtherError "ValueError" "cannot fetch data"), w')
      ∧ fs w' = fs Standin.empty_world
      ∧ acquisitions w'
        = acquisitions Standin.empty_world
            ++ [(t_ref_default, Standin.settings)].
Proof.
  assert (Hlook : @load_data_from_file Standin.storage "events.hdf5"
                    (@py_str Standin.builtins (VFloat t_ref_default))
                    Standin.settings (fs Standin.empty_world) = Ok None)
    by by_evaluation.
  assert (Hdown : @download_raw_data Faulty.offline_network t_ref_default
                    Standin.settings (acquisitions Standin.empty_world)
                  = Raise (OtherError "ValueError" "cannot fetch data"))
    by reflexivity.
  exact (conj (conj Hlook Hdown)
           (@failed_download_writes_nothing Standin.builtins Standin.storage
              Faulty.offline_network t_ref_default Standin.settings
              "events.hdf5" Standin.empty_world _ Hlook Hdown)).
Defined.

Lemma failed_write_loses_the_data_witness :
  (@load_data_from_file Faulty.readonly_storage "events.hdf5"
     (@py_str Standin.builtins (VFloat t_ref_default)) Standin.settings
     (fs Faulty.readonly_world) = Ok None
   ∧ @download_raw_data Standin.network t_ref_default Standin.settings
       (acquisitions Faulty.readonly_world) = Ok Standin.event_data
   ∧ @to_file Faulty.readonly_storage
       (cache_dataset (@py_str Standin.builtins (VFloat t_ref_default))
          Standin.event_data Standin.settings)
       "events.hdf5" "a" (fs Faulty.readonly_world)
     = (Raise (OtherError "OSError" "unable to create file"),
        fs Faulty.readonly_world))
  ∧ ∃ w',
      @load_raw_data Standin.builtins Faulty.readonly_storage Standin.network
        t_ref_default Standin.settings (Some "events.hdf5")
        Faulty.readonly_world
      = (Raise (OtherError "OSError" "unable to create file"), w')
      ∧ acquisitions w'
        = acquisitions Faulty.readonly_world
            ++ [(t_ref_default, Standin.settings)].
Proof.
  assert (Hlook : @load_data_from_file Faulty.readonly_storage "events.hdf5"
                    (@py_str Standin.builtins (VFloat t_ref_default))
                    Standin.settings (fs Faulty.readonly_world) = Ok None)
    by reflexivity.
  assert (Hdown : @download_raw_data Standin.network t_ref_default
                    Standin.settings (acquisitions Faulty.readonly_world)
                  = Ok Standin.event_data) by reflexivity.
  assert (Hwrite : @to_file Faulty.readonly_storage
                     (cache_dataset
                        (@py_str Standin.builtins (VFloat t_ref_default))
                        Standin.event_data Standin.settings)
                     "events.hdf5" "a" (fs Faulty.readonly_world)
                   = (Raise (OtherError "OSError" "unable to create file"),
                      fs Faulty.readonly_world)) by reflexivity.
  exact (conj (conj Hlook (conj Hdown Hwrite))
           (@failed_write_loses_the_data Standin.builtins
              Faulty.readonly_storage Standin.network t_ref_default
              Standin.settings "events.hdf5" Faulty.readonly_world
              Standin.event_data _ _ Hlook Hdown Hwrite)).
Defined.

Lemma miss_downloads_and_saves_witness :
  (@load_data_from_file Standin.storage "events.hdf5"
     (@py_str Standin.builtins (VFloat t_ref_default)) Standin.settings
     (fs Standin.empty_world) = Ok None
   ∧ @download_raw_data Standin.network t_ref_default Standin.settings
       (acquisitions Standin.empty_world) = Ok Standin.event_data
   ∧ @to_file Standin.storage
       {| dictionary :=
            <["settings" := ItemSettings Standin.settings]>
              {[ @py_str Standin.builtins (VFloat t_ref_default)
                 := ItemData Standin.event_data ]};
          data_keys := [@py_str Standin.builtins (VFloat t_ref_default)] |}
       "events.hdf5" "a" (fs Standin.empty_world)
     = (Ok (), fs Standin.cached_world))
  ∧ ∃ w',
      @load_raw_data Standin.builtins Standin.storage Standin.network
        t_ref_default Standin.settings (Some "events.hdf5")
        Standin.empty_world = (Ok Standin.event_data, w')
      ∧ fs w' = fs Standin.cached_world
      ∧ acquisitions w'
        = acquisitions Standin.empty_world
            ++ [(t_ref_default, Standin.settings)].
Proof.
  assert (Hlook : @load_data_from_file Standin.storage "events.hdf5"
                    (@py_str Standin.builtins (VFloat t_ref_default))
                    Standin.settings (fs Standin.empty_world) = Ok None)
    by by_evaluation.
  assert (Hdown : @download_raw_data Standin.network t_ref_default
                    Standin.settings (acquisitions Standin.empty_world)
                  = Ok Standin.event_data) by reflexivity.
  assert (Hwrite : @to_file Standin.storage
                     {| dictionary :=
                          <["settings" := ItemSettings Standin.settings]>
                            {[ @py_str Standin.builtins (VFloat t_ref_default)
                               := ItemData Standin.event_data ]};
                        data_keys :=
                          [@py_str Standin.builtins (VFloat t_ref_default)] |}
                     "events.hdf5" "a" (fs Standin.empty_world)
                   = (Ok (), fs Standin.cached_world)) by by_evaluation.
  exact (conj (conj Hlook (conj Hdown Hwrite))
           (@miss_downloads_and_saves Standin.builtins Standin.storage
              Standin.network t_ref_default Standin.settings "events.hdf5"
              Standin.empty_world Standin.event_data _ Hlook Hdown Hwrite)).
Defined.

(** ** The parser: when it returns and what it raises *)

Section parser_paths.
Context `{Builtins}.

(** A result of the parser, read backwards: the kind was
    ["FrequencyDomain"], every lookup returned, and the settings are the
    six entries. *)
Lemma parse_settings_inv (model_metadata time_psd time_buffer : value)
    (settings : gmap string value) :
  parse_settings_for_raw_data model_metadata time_psd time_buffer
  = Ok settings →
  ∃ train_settings data_settings window detectors T f_s,
    metadata_domain_type model_metadata = Ok (VStr "FrequencyDomain")
    ∧ py_getitem model_metadata "train_settings" = Ok train_settings
    ∧ py_getitem train_settings "data" = Ok data_settings
    ∧ py_getitem data_settings "window" = Ok window
    ∧ py_getitem data_settings "detectors" = Ok detectors
    ∧ py_getitem window "T" = Ok T
    ∧ py_getitem window "f_s" = Ok f_s
    ∧ settings
      = <["f_s" := f_s]>
          (<["time_buffer" := time_buffer]>
          (<["time_psd" := time_psd]>
          (<["time_segment" := T]>
          (<["detectors" := detectors]>
          (<["window" := window]> ∅))))).
Proof.
  unfold parse_settings_for_raw_data.
  destruct (metadata_domain_type model_metadata) as [kind|] eqn:Hkind;
    cbn [mbind result_bind]; [|done].
  destruct kind as [| | | |s| |]; cbn [py_eq_str]; try done.
  case_bool_decide as Hs; [subst s|done].
  destruct (py_getitem model_metadata "train_settings") as [ts|] eqn:Hts;
    cbn [mbind result_bind]; [|done].
  destruct (py_getitem ts "data") as [ds|] eqn:Hds;
    cbn [mbind result_bind]; [|done].
  destruct (py_getitem ds "window") as [wv|] eqn:Hwv;
    cbn [mbind result_bind]; [|done].
  destruct (py_getitem ds "detectors") as [dets|] eqn:Hdets;
    cbn [mbind result_bind]; [|done].
  destruct (py_getitem wv "T") as [T|] eqn:HT;
    cbn [mbind result_bind]; [|done].
  destruct (py_getitem wv "f_s") as [f_s|] eqn:Hfs;
    cbn [mbind result_bind]; [|done].
  intros [= <-]. exists ts, ds, wv, dets, T, f_s. by split_and!.
Qed.

(** X7: the parser returns settings only for metadata that declares
    ["FrequencyDomain"] and holds the window with [T] and [f_s] and the
    detectors; what it returns then always has exactly six keys. *)
Theorem parse_settings_returns_only_for_frequency_domain
    (model_metadata time_psd time_buffer : value)
    (settings : gmap string value) :
  parse_settings_for_raw_data model_metadata time_psd time_buffer
  = Ok settings →
  metadata_domain_type model_metadata = Ok (VStr "FrequencyDomain")
  ∧ (∃ train_settings data_settings window detectors T f_s,
       py_getitem model_metadata "train_settings" = Ok train_settings
       ∧ py_getitem train_settings "data" = Ok data_settings
       ∧ py_getitem data_settings "window" = Ok window
       ∧ py_getitem data_settings "detectors" = Ok detectors
       ∧ py_getitem window "T" = Ok T
       ∧ py_getitem window "f_s" = Ok f_s
       ∧ settings !! "window" = Some window
       ∧ settings !! "detectors" = Some detectors
       ∧ settings !! "time_segment" = Some T
       ∧ settings !! "f_s" = Some f_s)
  ∧ size settings = 6.
Proof.
  intros (ts & ds & wv & dets & T & f_s & Hkind & Hts & Hds & Hwv & Hdets
          & HT & Hfs & ->)%parse_settings_inv.
  split; [exact Hkind|]. split.
  - exists ts, ds, wv, dets, T, f_s. split_and!; try done; by simplify_map_eq.
  - rewrite !map_size_insert_None by by simplify_map_eq.
    by rewrite map_size_empty.
Qed.

(** X8: in metadata that declares ["FrequencyDomain"] and holds the
    window and the detectors, a window without [T] (or one whose [T]
    cannot be read) makes the parser raise that lookup's exception, also
    when [f_s] is there. *)
Theorem parse_settings_needs_window_length
    (model_metadata time_psd time_buffer : value)
    (train_settings data_settings window detectors : value) (e : exn) :
  metadata_domain_type model_metadata = Ok (VStr "FrequencyDomain") →
  py_getitem model_metadata "train_settings" = Ok train_settings →
  py_getitem train_settings "data" = Ok data_settings →
  py_getitem data_settings "window" = Ok window →
  py_getitem data_settings "detectors" = Ok detectors →
  py_getitem window "T" = Raise e →
  parse_settings_for_raw_data model_metadata time_psd time_buffer = Raise e.
Proof.
  intros Hkind Hts Hdata Hwin Hdet HT.
  unfold parse_settings_for_raw_data. rewrite Hkind.
  cbn [mbind result_bind py_eq_str].
  rewrite bool_decide_eq_true_2 by done.
  rewrite Hts. cbn [mbind result_bind]. rewrite Hdata.
  cbn [mbind result_bind]. rewrite Hwin. cbn [mbind result_bind].
  rewrite Hdet. cbn [mbind result_bind]. by rewrite HT.
Qed.
End parser_paths.

Lemma parse_settings_returns_only_for_frequency_domain_witness :
  let metadata := Standin.metadata "FrequencyDomain" in
  @parse_settings_for_raw_data Standin.builtins metadata (VInt 1024)
    (VFloat (of_Z 2)) = Ok Standin.settings
  ∧ metadata_domain_type metadata = Ok (VStr "FrequencyDomain")
  ∧ (∃ train_settings data_settings window detectors T f_s,
       py_getitem metadata "train_settings" = Ok train_settings
       ∧ py_getitem train_settings "data" = Ok data_settings
       ∧ py_getitem data_settings "window" = Ok window
       ∧ py_getitem data_settings "detectors" = Ok detectors
       ∧ py_getitem window "T" = Ok T
       ∧ py_getitem window "f_s" = Ok f_s
       ∧ Standin.settings !! "window" = Some window
       ∧ Standin.settings !! "detectors" = Some detectors
       ∧ Standin.settings !! "time_segment" = Some T
       ∧ Standin.settings !! "f_s" = Some f_s)
  ∧ size Standin.settings = 6.
Proof.
  intros metadata.
  assert (Hrun : @parse_settings_for_raw_data Standin.builtins metadata
                   (VInt 1024) (VFloat (of_Z 2)) = Ok Standin.settings)
    by by_evaluation.
  exact (conj Hrun
           (@parse_settings_returns_only_for_frequency_domain
              Standin.builtins metadata (VInt 1024) (VFloat (of_Z 2))
              Standin.settings Hrun)).
Defined.

Lemma parse_settings_needs_window_length_witness :
  let window := VDict {[ "f_s" := VInt 4096 ]} in
  let data_settings :=
    VDict {[ "window" := window; "detectors" := VList [VStr "H1"] ]} in
  let train_settings := VDict {[ "data" := data_settings ]} in
  let metadata :=
    VDict {[ "dataset_settings" :=
               VDict {[ "domain" :=
                          VDict {[ "type" := VStr "FrequencyDomain" ]} ]};
             "train_settings" := train_settings ]} in
  (metadata_domain_type metadata = Ok (VStr "FrequencyDomain")
   ∧ py_getitem metadata "train_settings" = Ok train_settings
   ∧ py_getitem train_settings "data" = Ok data_settings
   ∧ py_getitem data_settings "window" = Ok window
   ∧ py_getitem data_settings "detectors" = Ok (VList [VStr "H1"])
   ∧ py_getitem window "T" = Raise (KeyError "T"))
  ∧ @parse_settings_for_raw_data Standin.builtins metadata (VInt 1024)
      (VFloat (of_Z 2)) = Raise (KeyError "T").
Proof.
  intros window data_settings train_settings metadata.
  assert (H1 : metadata_domain_type metadata = Ok (VStr "FrequencyDomain"))
    by by_evaluation.
  assert (H2 : py_getitem metadata "train_settings" = Ok train_settings)
    by by_evaluation.
  assert (H3 : py_getitem train_settings "data" = Ok data_settings)
    by by_evaluation.
  assert (H4 : py_getitem data_settings "window" = Ok window)
    by by_evaluation.
  assert (H5 : py_getitem data_settings "detectors" = Ok (VList [VStr "H1"]))
    by by_evaluation.
  assert (H6 : py_getitem window "T" = Raise (KeyError "T")) by by_evaluation.
  exact (conj (conj H1 (conj H2 (conj H3 (conj H4 (conj H5 H6)))))
           (@parse_settings_needs_window_length Standin.builtins metadata
              (VInt 1024) (VFloat (of_Z 2)) train_settings data_settings
              window (VList [VStr "H1"]) (KeyError "T")
              H1 H2 H3 H4 H5 H6)).
Defined.

(** ** The converter: when it returns and what it reads *)

Section converter_paths.
Context `{SignalProcessing, Domains}.
Implicit Types (raw : raw_data) (dom : domain) (data : domain_data).
Implicit Types (settings kwargs : gmap string value).

Lemma for_each_ext {A S} (items : list A) (body body' : A → S → result S)
    (s : S) :
  (∀ x s, body x s = body' x s) →
  for_each items body s = for_each items body' s.
Proof.
  intros Hext. revert s. induction items as [|x items IH]; intros s; [done|].
  cbn [for_each]. rewrite Hext. destruct (body' x s); cbn; [apply IH|done].
Qed.

Lemma psd_loop_waveform dom items data data' :
  for_each items (convert_psd dom) data = Ok data' →
  waveform data' = waveform data.
Proof.
  revert data. induction items as [|[det psd] items IH]; intros data.
  - by intros [= ->].
  - cbn [for_each]. rewrite convert_psd_eq.
    destruct (psd_to_asd dom psd) as [a|]; cbn [mbind result_bind]; [|done].
    intros Hrest. by rewrite (IH _ Hrest).
Qed.

(** After the strain loop every visited detector holds its converted
    strain, and the other entries are as before. *)
Lemma strain_loop_waveform settings dom window items data data' :
  NoDup items.*1 →
  for_each items (convert_strain settings dom window) data = Ok data' →
  ∀ det,
    (∀ s, (det, s) ∈ items →
       ∃ arr, strain_to_domain settings dom window s = Ok arr
              ∧ waveform data' !! det = Some arr)
    ∧ (det ∉ items.*1 → waveform data' !! det = waveform data !! det).
Proof.
  revert data. induction items as [|[k x] items IH]; intros data Hnd.
  - intros [= ->] det. split; [|done]. by intros s ?%elem_of_nil.
  - apply NoDup_cons in Hnd as [Hk Hnd].
    cbn [for_each]. rewrite convert_strain_eq.
    destruct (strain_to_domain settings dom window x) as [a|] eqn:Ha;
      cbn [mbind result_bind]; [|done].
    intros Hrest det.
    destruct (IH _ Hnd Hrest det) as [Hin Hout]. split.
    + intros s [[= -> ->]|Hmem]%elem_of_cons.
      * exists a. split; [done|]. rewrite (proj2 (IH _ Hnd Hrest k) Hk).
        cbn. apply lookup_insert_eq.
      * by apply Hin.
    + intros Hnot. cbn in Hnot. apply not_elem_of_cons in Hnot as [Hne Hnot].
      rewrite (Hout Hnot). cbn. by apply lookup_insert_ne.
Qed.

(** A result of the converter, read backwards. *)
Lemma data_to_domain_inv raw settings dom kwargs data :
  data_to_domain raw settings dom kwargs = Ok data →
  type_of dom = FrequencyDomain
  ∧ ∃ window_spec window,
      kwargs !! "window" = Some window_spec
      ∧ get_window window_spec = Ok window
      ∧ (∀ det,
           match raw_strain raw !! det with
           | Some s =>
               ∃ arr, strain_to_domain settings dom window s = Ok arr
                      ∧ waveform data !! det = Some arr
           | None => waveform data !! det = None
           end)
      ∧ (∀ det,
           match raw_psd raw !! det with
           | Some psd =>
               ∃ asd, psd_to_asd dom psd = Ok asd
                      ∧ asds data !! det = Some asd
           | None => asds data !! det = None
           end).
Proof.
  unfold data_to_domain. case_bool_decide as Hty; [|done].
  unfold dict_getitem.
  destruct (kwargs !! "window") as [ws|] eqn:Hkw;
    cbn [mbind result_bind]; [|done].
  destruct (get_window ws) as [window|] eqn:Hwin;
    cbn [mbind result_bind]; [|done].
  destruct (for_each (map_to_list (raw_strain raw)) _ _) as [data1|]
    eqn:Hloop1; cbn [mbind result_bind]; [|done].
  destruct (for_each (map_to_list (raw_psd raw)) _ _) as [data2|]
    eqn:Hloop2; cbn [mbind result_bind]; [|done].
  intros [= <-]. split; [done|]. exists ws, window. split_and!; [done..| |].
  - intros det.
    destruct (strain_loop_waveform _ _ _ _ _ _ (NoDup_fst_map_to_list _)
                Hloop1 det) as [Hin Hout].
    rewrite (psd_loop_waveform _ _ _ _ Hloop2).
    destruct (raw_strain raw !! det) as [s|] eqn:Hdet.
    + apply Hin. by apply elem_of_map_to_list.
    + rewrite Hout; [apply lookup_empty|].
      intros ((k & x) & -> & Hmem%elem_of_map_to_list)%list_elem_of_fmap.
      cbn in Hdet. congruence.
  - intros det.
    destruct (psd_loop_asds dom _ _ _ (NoDup_fst_map_to_list _) Hloop2 det)
      as [Hin Hout].
    destruct (raw_psd raw !! det) as [psd|] eqn:Hdet.
    + apply Hin. by apply elem_of_map_to_list.
    + rewrite Hout.
      * rewrite (strain_loop_asds _ _ _ _ _ _ Hloop1). apply lookup_empty.
      * intros ((k & x) & -> & Hmem%elem_of_map_to_list)%list_elem_of_fmap.
        cbn in Hdet. congruence.
Qed.

(** X9: on a [FrequencyDomain] object without the keyword argument
    [window] the converter raises [KeyError] for ["window"], whatever the
    raw data and the settings are. *)
Theorem converter_needs_window_kwarg raw settings dom kwargs :
  type_of dom = FrequencyDomain →
  kwargs !! "window" = None →
  data_to_domain raw settings dom kwargs = Raise (KeyError "window").
Proof.
  intros Hty Hkw. unfold data_to_domain, dict_getitem.
  rewrite bool_decide_eq_true_2 by done. by rewrite Hkw.
Qed.

(** X10: a mapping the converter returns has under ["waveform"] exactly
    the detectors of the strain section, each with its converted strain,
    and under ["asds"] exactly the detectors of the PSD section; the two
    sets of detectors are not compared. *)
Theorem converter_output_detectors raw settings (d : domain) kwargs data :
  data_to_domain raw settings d kwargs = Ok data →
  dom (waveform data) = dom (raw_strain raw)
  ∧ dom (asds data) = dom (raw_psd raw)
  ∧ ∃ window_spec window,
      kwargs !! "window" = Some window_spec
      ∧ get_window window_spec = Ok window
      ∧ ∀ det s, raw_strain raw !! det = Some s →
          ∃ arr, strain_to_domain settings d window s = Ok arr
                 ∧ waveform data !! det = Some arr.
Proof.
  intros (_ & ws & window & Hkw & Hwin & Hwave & Hasd)%data_to_domain_inv.
  split_and!.
  - apply set_eq. intros det. rewrite !elem_of_dom. specialize (Hwave det).
    destruct (raw_strain raw !! det) as [s|].
    + destruct Hwave as (arr & _ & ->). by split.
    + rewrite Hwave. by split; intros [? ?].
  - apply set_eq. intros det. rewrite !elem_of_dom. specialize (Hasd det).
    destruct (raw_psd raw !! det) as [s|].
    + destruct Hasd as (arr & _ & ->). by split.
    + rewrite Hasd. by split; intros [? ?].
  - exists ws, window. split_and!; [done..|]. intros det s Hdet.
    specialize (Hwave det). by rewrite Hdet in Hwave.
Qed.

(** X11: when the conversion of one detector's strain raises, the
    converter returns nothing: there is no partial mapping with the other
    detectors. *)
Theorem one_failed_strain_fails_the_conversion
    raw settings dom kwargs (window_spec : value) (window : list float)
    (det : string) (s : list float) (e : exn) :
  kwargs !! "window" = Some window_spec →
  get_window window_spec = Ok window →
  raw_strain raw !! det = Some s →
  strain_to_domain settings dom window s = Raise e →
  ∃ e', data_to_domain raw settings dom kwargs = Raise e'.
Proof.
  intros Hkw Hwin Hdet Hfail.
  destruct (data_to_domain raw settings dom kwargs) as [data|e'] eqn:Hrun;
    [exfalso|by eexists].
  apply data_to_domain_inv in Hrun
    as (_ & ws & window' & Hkw' & Hwin' & Hwave & _).
  rewrite Hkw in Hkw'. injection Hkw' as <-.
  rewrite Hwin in Hwin'. injection Hwin' as <-.
  specialize (Hwave det). rewrite Hdet in Hwave.
  destruct Hwave as (arr & Harr & _). congruence.
Qed.

(** X12: of the settings the converter reads only ["f_s"] and
    ["time_buffer"]: settings that agree on these two keys give the same
    result, whatever else they hold (the window comes from the keyword
    argument). *)
Theorem converter_reads_two_settings raw settings settings' dom kwargs :
  settings !! "f_s" = settings' !! "f_s" →
  settings !! "time_buffer" = settings' !! "time_buffer" →
  data_to_domain raw settings dom kwargs
  = data_to_domain raw settings' dom kwargs.
Proof.
  intros Hfs Htb. unfold data_to_domain.
  destruct (bool_decide _); [|done].
  destruct (dict_getitem kwargs "window") as [ws|]; [|done].
  cbn [mbind result_bind].
  destruct (get_window ws) as [window|]; [|done]. cbn [mbind result_bind].
  rewrite (for_each_ext _ (convert_strain settings dom window)
             (convert_strain settings' dom window)); [done|].
  intros [det s] data. rewrite !convert_strain_eq.
  unfold strain_to_domain, dict_getitem. by rewrite Hfs, Htb.
Qed.

(** X13: with at least one strain to convert, a sample rate that cannot
    be inverted (["f_s"] missing, zero, or not a number) makes the
    converter raise that very exception. *)
Theorem bad_sample_rate_fails_the_conversion
    raw settings dom kwargs (window_spec : value) (window : list float)
    (e : exn) :
  type_of dom = FrequencyDomain →
  kwargs !! "window" = Some window_spec →
  get_window window_spec = Ok window →
  raw_strain raw ≠ ∅ →
  dict_getitem settings "f_s" ≫= py_one_over = Raise e →
  data_to_domain raw settings dom kwargs = Raise e.
Proof.
  intros Hty Hkw Hwin Hne Hrate. unfold data_to_domain.
  rewrite bool_decide_eq_true_2 by done.
  unfold dict_getitem at 1. rewrite Hkw. cbn [mbind result_bind].
  rewrite Hwin. cbn [mbind result_bind].
  destruct (map_to_list (raw_strain raw)) as [|[det s] items] eqn:Hitems.
  { by apply map_to_list_empty_iff in Hitems. }
  cbn [for_each]. rewrite convert_strain_eq. unfold strain_to_domain.
  destruct (dict_getitem settings "f_s") as [f_s|e'];
    cbn [mbind result_bind] in *.
  - by rewrite Hrate.
  - by injection Hrate as ->.
Qed.
End converter_paths.

Lemma converter_needs_window_kwarg_witness :
  (@type_of Standin.domains Standin.frequency_domain
   = @FrequencyDomain Standin.domains
   ∧ (∅ : gmap string value) !! "window" = None)
  ∧ @data_to_domain Standin.signal Standin.domains Standin.event_data
      Standin.settings Standin.frequency_domain ∅
    = Raise (KeyError "window").
Proof.
  assert (Hty : @type_of Standin.domains Standin.frequency_domain
                = @FrequencyDomain Standin.domains) by reflexivity.
  assert (Hkw : (∅ : gmap string value) !! "window" = None) by reflexivity.
  exact (conj (conj Hty Hkw)
           (@converter_needs_window_kwarg Standin.signal Standin.domains
              Standin.event_data Standin.settings Standin.frequency_domain
              ∅ Hty Hkw)).
Defined.

Lemma converter_output_detectors_witness :
  let data :=
    {| waveform :=
         {[ "H1" := ComplexArray [(one, zero); (of_Z 2, zero);
                                  (zero, zero); (zero, zero)] ]};
       asds := {[ "H1" := RealArray [of_Z 2; one; of_Z 3; one] ]} |} in
  @data_to_domain Standin.signal Standin.domains Standin.event_data
    Standin.settings Standin.frequency_domain Standin.kwargs = Ok data
  ∧ dom (waveform data) = dom (raw_strain Standin.event_data)
  ∧ dom (asds data) = dom (raw_psd Standin.event_data)
  ∧ ∃ window_spec window,
      Standin.kwargs !! "window" = Some window_spec
      ∧ @get_window Standin.signal window_spec = Ok window
      ∧ ∀ det s, raw_strain Standin.event_data !! det = Some s →
          ∃ arr,
            @strain_to_domain Standin.signal Standin.domains Standin.settings
              Standin.frequency_domain window s = Ok arr
            ∧ waveform data !! det = Some arr.
Proof.
  intros data.
  assert (Hrun : @data_to_domain Standin.signal Standin.domains
                   Standin.event_data Standin.settings
                   Standin.frequency_domain Standin.kwargs = Ok data)
    by by_evaluation.
  exact (conj Hrun
           (@converter_output_detectors Standin.signal Standin.domains
              Standin.event_data Standin.settings Standin.frequency_domain
              Standin.kwargs data Hrun)).
Defined.

Lemma one_failed_strain_fails_the_conversion_witness :
  (Standin.kwargs !! "window" = Some Standin.window_settings
   ∧ @get_window Faulty.signal_without_series Standin.window_settings = Ok []
   ∧ raw_strain Standin.event_data !! "H1" = Some [one; of_Z 2]
   ∧ @strain_to_domain Faulty.signal_without_series Standin.domains
       Standin.settings Standin.frequency_domain [] [one; of_Z 2]
     = Raise (OtherError "ValueError" "bad samples"))
  ∧ ∃ e',
      @data_to_domain Faulty.signal_without_series Standin.domains
        Standin.event_data Standin.settings Standin.frequency_domain
        Standin.kwargs = Raise e'.
Proof.
  assert (Hkw : Standin.kwargs !! "window" = Some Standin.window_settings)
    by by_evaluation.
  assert (Hwin : @get_window Faulty.signal_without_series
                   Standin.window_settings = Ok []) by reflexivity.
  assert (Hdet : raw_strain Standin.event_data !! "H1" = Some [one; of_Z 2])
    by by_evaluation.
  assert (Hfail : @strain_to_domain Faulty.signal_without_series
                    Standin.domains Standin.settings
                    Standin.frequency_domain [] [one; of_Z 2]
                  = Raise (OtherError "ValueError" "bad samples"))
    by by_evaluation.
  exact (conj (conj Hkw (conj Hwin (conj Hdet Hfail)))
           (@one_failed_strain_fails_the_conversion
              Faulty.signal_without_series Standin.domains Standin.event_data
              Standin.settings Standin.frequency_domain Standin.kwargs
              Standin.window_settings [] "H1" [one; of_Z 2] _
              Hkw Hwin Hdet Hfail)).
Defined.

Lemma converter_reads_two_settings_witness :
  let settings' : gmap string value :=
    {[ "f_s" := VInt 4096; "time_buffer" := VFloat (of_Z 2) ]} in
  (Standin.settings !! "f_s" = settings' !! "f_s"
   ∧ Standin.settings !! "time_buffer" = settings' !! "time_buffer")
  ∧ @data_to_domain Standin.signal Standin.domains Standin.event_data
      Standin.settings Standin.frequency_domain Standin.kwargs
    = @data_to_domain Standin.signal Standin.domains Standin.event_data
        settings' Standin.frequency_domain Standin.kwargs.
Proof.
  intros settings'.
  assert (Hfs : Standin.settings !! "f_s" = settings' !! "f_s")
    by by_evaluation.
  assert (Htb : Standin.settings !! "time_buffer"
                = settings' !! "time_buffer") by by_evaluation.
  exact (conj (conj Hfs Htb)
           (@converter_reads_two_settings Standin.signal Standin.domains
              Standin.event_data Standin.settings settings'
              Standin.frequency_domain Standin.kwargs Hfs Htb)).
Defined.

Lemma bad_sample_rate_fails_the_conversion_witness :
  let settings : gmap string value := <["f_s" := VInt 0]> Standin.settings in
  (@type_of Standin.domains Standin.frequency_domain
   = @FrequencyDomain Standin.domains
   ∧ Standin.kwargs !! "window" = Some Standin.window_settings
   ∧ @get_window Standin.signal Standin.window_settings = Ok []
   ∧ raw_strain Standin.event_data ≠ ∅
   ∧ dict_getitem settings "f_s" ≫= py_one_over
     = Raise (ZeroDivisionError "division by zero"))
  ∧ @data_to_domain Standin.signal Standin.domains Standin.event_data
      settings Standin.frequency_domain Standin.kwargs
    = Raise (ZeroDivisionError "division by zero").
Proof.
  intros settings.
  assert (Hty : @type_of Standin.domains Standin.frequency_domain
                = @FrequencyDomain Standin.domains) by reflexivity.
  assert (Hkw : Standin.kwargs !! "window" = Some Standin.window_settings)
    by by_evaluation.
  assert (Hwin : @get_window Standin.signal Standin.window_settings = Ok [])
    by reflexivity.
  assert (Hne : raw_strain Standin.event_data ≠ ∅).
  { intros Heq. apply (f_equal (λ m, m !! "H1")) in Heq.
    vm_compute in Heq. discriminate Heq. }
  assert (Hrate : dict_getitem settings "f_s" ≫= py_one_over
                  = Raise (ZeroDivisionError "division by zero"))
    by by_evaluation.
  exact (conj (conj Hty (conj Hkw (conj Hwin (conj Hne Hrate))))
           (@bad_sample_rate_fails_the_conversion Standin.signal
              Standin.domains Standin.event_data settings
              Standin.frequency_domain Standin.kwargs
              Standin.window_settings [] _ Hty Hkw Hwin Hne Hrate)).
Defined.

(** ** The orchestrator *)

Section orchestrator.
Context `{Builtins, SignalProcessing, Domains, Storage, Network}.
Implicit Types (settings : gmap string value) (w : world).

(** [get_domain_data] once the parser and the loader have returned. *)
Lemma get_domain_data_after_load (model_metadata : value)
    (time_event : float) (time_psd time_buffer : value)
    (event_dataset : option string) w settings (raw : raw_data) w' :
  parse_settings_for_raw_data model_metadata time_psd time_buffer
  = Ok settings →
  load_raw_data time_event settings event_dataset w = (Ok raw, w') →
  ∃ window,
    settings !! "window" = Some window
    ∧ get_domain_data model_metadata time_event time_psd time_buffer
        event_dataset w
      = (d ← build_domain_from_model_metadata model_metadata;
         data_to_domain raw settings d {[ "window" := window ]},
         w').
Proof.
  intros Hparse Hload.
  destruct (parse_settings_inv _ _ _ _ Hparse)
    as (ts & ds & wv & dets & T & f_s & _ & Hts & Hds & Hwv & _ & _ & _ & ->).
  exists wv. split; [by simplify_map_eq|].
  unfold get_domain_data. unfold mbind at 1, world_bind at 1, lift at 1.
  rewrite Hparse. unfold mbind at 1, world_bind at 1. rewrite Hload.
  unfold lift. f_equal.
  destruct (build_domain_from_model_metadata model_metadata) as [d|];
    cbn [mbind result_bind]; [|done].
  rewrite Hts. cbn [mbind result_bind]. rewrite Hds.
  cbn [mbind result_bind]. by rewrite Hwv.
Qed.

(** X14: the converter gets the parsed settings, the loaded data, the
    domain the factory built, and as keyword [window] the window of the
    settings; the world is the one the loader left. *)
Theorem get_domain_data_composes (model_metadata : value)
    (time_event : float) (time_psd time_buffer : value)
    (event_dataset : option string) w settings (raw : raw_data) w'
    (d : domain) :
  parse_settings_for_raw_data model_metadata time_psd time_buffer
  = Ok settings →
  load_raw_data time_event settings event_dataset w = (Ok raw, w') →
  build_domain_from_model_metadata model_metadata = Ok d →
  ∃ window,
    settings !! "window" = Some window
    ∧ get_domain_data model_metadata time_event time_psd time_buffer
        event_dataset w
      = (data_to_domain raw settings d {[ "window" := window ]}, w').
Proof.
  intros Hparse Hload Hbuild.
  destruct (get_domain_data_after_load _ _ _ _ _ _ _ _ _ Hparse Hload)
    as (window & Hwin & ->).
  exists window. split; [done|]. by rewrite Hbuild.
Qed.

(** X15: a domain of an unsupported type is found out only after the
    load: [get_domain_data] raises [NotImplementedError], and the
    acquisition and the write the loader made stay. *)
Theorem unsupported_type_is_found_after_the_load (model_metadata : value)
    (time_event : float) (time_psd time_buffer : value)
    (event_dataset : option string) w settings (raw : raw_data) w'
    (d : domain) :
  parse_settings_for_raw_data model_metadata time_psd time_buffer
  = Ok settings →
  load_raw_data time_event settings event_dataset w = (Ok raw, w') →
  build_domain_from_model_metadata model_metadata = Ok d →
  type_of d ≠ FrequencyDomain →
  get_domain_data model_metadata time_event time_psd time_buffer
    event_dataset w
  = (Raise (NotImplementedError
              ("Unknown domain type " +:+ class_repr (type_of d))), w').
Proof.
  intros Hparse Hload Hbuild Hty.
  destruct (get_domain_data_after_load _ _ _ _ _ _ _ _ _ Hparse Hload)
    as (window & Hwin & ->).
  rewrite Hbuild. cbn [mbind result_bind].
  by rewrite data_to_domain_other_type.
Qed.

(** X16: the factory runs after the load too: when it raises,
    [get_domain_data] raises the same exception, in the world the loader
    left. *)
Theorem failed_factory_is_found_after_the_load (model_metadata : value)
    (time_event : float) (time_psd time_buffer : value)
    (event_dataset : option string) w settings (raw : raw_data) w'
    (e : exn) :
  parse_settings_for_raw_data model_metadata time_psd time_buffer
  = Ok settings →
  load_raw_data time_event settings event_dataset w = (Ok raw, w') →
  build_domain_from_model_metadata model_metadata = Raise e →
  get_domain_data model_metadata time_event time_psd time_buffer
    event_dataset w = (Raise e, w').
Proof.
  intros Hparse Hload Hbuild.
  destruct (get_domain_data_after_load _ _ _ _ _ _ _ _ _ Hparse Hload)
    as (window & Hwin & ->).
  by rewrite Hbuild.
Qed.

(** X17: metadata whose domain kind cannot be read (a key on the way is
    missing, or a value there is not a mapping) makes the parser and
    [get_domain_data] raise that lookup's exception, before anything is
    loaded. *)
Theorem unreadable_domain_kind_raises (model_metadata : value)
    (time_event : float) (time_psd time_buffer : value)
    (event_dataset : option string) w (e : exn) :
  metadata_domain_type model_metadata = Raise e →
  parse_settings_for_raw_data model_metadata time_psd time_buffer = Raise e
  ∧ get_domain_data model_metadata time_event time_psd time_buffer
      event_dataset w = (Raise e, w).
Proof.
  intros Hkind.
  assert (Hparse : parse_settings_for_raw_data model_metadata time_psd
                     time_buffer = Raise e).
  { unfold parse_settings_for_raw_data. by rewrite Hkind. }
  split; [exact Hparse|].
  unfold get_domain_data, mbind at 1, world_bind, lift. by rewrite Hparse.
Qed.
End orchestrator.

Lemma get_domain_data_composes_witness :
  let metadata := Standin.metadata "FrequencyDomain" in
  (@parse_settings_for_raw_data Standin.builtins metadata (VInt 1024)
     (VFloat (of_Z 2)) = Ok Standin.settings
   ∧ @load_raw_data Standin.builtins Standin.storage Standin.network
       t_ref_default Standin.settings None Standin.empty_world
     = (Ok Standin.event_data, Faulty.downloaded_world)
   ∧ @build_domain_from_model_metadata Standin.domains metadata
     = Ok Standin.frequency_domain)
  ∧ ∃ window,
      Standin.settings !! "window" = Some window
      ∧ @get_domain_data Standin.builtins Standin.signal Standin.domains
          Standin.storage Standin.network metadata t_ref_default (VInt 1024)
          (VFloat (of_Z 2)) None Standin.empty_world
        = (@data_to_domain Standin.signal Standin.domains Standin.event_data
             Standin.settings Standin.frequency_domain
             {[ "window" := window ]},
           Faulty.downloaded_world).
Proof.
  intros metadata.
  assert (Hparse : @parse_settings_for_raw_data Standin.builtins metadata
                     (VInt 1024) (VFloat (of_Z 2)) = Ok Standin.settings)
    by by_evaluation.
  assert (Hload : @load_raw_data Standin.builtins Standin.storage
                    Standin.network t_ref_default Standin.settings None
                    Standin.empty_world
                  = (Ok Standin.event_data, Faulty.downloaded_world))
    by by_evaluation.
  assert (Hbuild : @build_domain_from_model_metadata Standin.domains metadata
                   = Ok Standin.frequency_domain) by reflexivity.
  exact (conj (conj Hparse (conj Hload Hbuild))
           (@get_domain_data_composes Standin.builtins Standin.signal
              Standin.domains Standin.storage Standin.network metadata
              t_ref_default (VInt 1024) (VFloat (of_Z 2)) None
              Standin.empty_world Standin.settings Standin.event_data
              Faulty.downloaded_world Standin.frequency_domain
              Hparse Hload Hbuild)).
Defined.

Lemma unsupported_type_is_found_after_the_load_witness :
  let metadata := Standin.metadata "FrequencyDomain" in
  (@parse_settings_for_raw_data Standin.builtins metadata (VInt 1024)
     (VFloat (of_Z 2)) = Ok Standin.settings
   ∧ @load_raw_data Standin.builtins Standin.storage Standin.network
       t_ref_default Standin.settings None Standin.empty_world
     = (Ok Standin.event_data, Faulty.downloaded_world)
   ∧ @build_domain_from_model_metadata Faulty.derived_domains metadata
     = Ok Standin.derived_domain
   ∧ @type_of Faulty.derived_domains Standin.derived_domain
     ≠ @FrequencyDomain Faulty.derived_domains)
  ∧ @get_domain_data Standin.builtins Standin.signal Faulty.derived_domains
      Standin.storage Standin.network metadata t_ref_default (VInt 1024)
      (VFloat (of_Z 2)) None Standin.empty_world
    = (Raise (NotImplementedError
                "Unknown domain type <class 'user.BandFrequencyDomain'>"),
       Faulty.downloaded_world).
Proof.
  intros metadata.
  assert (Hparse : @parse_settings_for_raw_data Standin.builtins metadata
                     (VInt 1024) (VFloat (of_Z 2)) = Ok Standin.settings)
    by by_evaluation.
  assert (Hload : @load_raw_data Standin.builtins Standin.storage
                    Standin.network t_ref_default Standin.settings None
                    Standin.empty_world
                  = (Ok Standin.event_data, Faulty.downloaded_world))
    by by_evaluation.
  assert (Hbuild : @build_domain_from_model_metadata Faulty.derived_domains
                     metadata = Ok Standin.derived_domain) by reflexivity.
  assert (Hty : @type_of Faulty.derived_domains Standin.derived_domain
                ≠ @FrequencyDomain Faulty.derived_domains) by discriminate.
  exact (conj (conj Hparse (conj Hload (conj Hbuild Hty)))
           (@unsupported_type_is_found_after_the_load Standin.builtins
              Standin.signal Faulty.derived_domains Standin.storage
              Standin.network metadata t_ref_default (VInt 1024)
              (VFloat (of_Z 2)) None Standin.empty_world Standin.settings
              Standin.event_data Faulty.downloaded_world
              Standin.derived_domain Hparse Hload Hbuild Hty)).
Defined.

Lemma failed_factory_is_found_after_the_load_witness :
  let metadata := Standin.metadata "FrequencyDomain" in
  (@parse_settings_for_raw_data Standin.builtins metadata (VInt 1024)
     (VFloat (of_Z 2)) = Ok Standin.settings
   ∧ @load_raw_data Standin.builtins Standin.storage Standin.network
       t_ref_default Standin.settings None Standin.empty_world
     = (Ok Standin.event_data, Faulty.downloaded_world)
   ∧ @build_domain_from_model_metadata Faulty.domains_without_factory
       metadata = Raise (KeyError "f_min"))
  ∧ @get_domain_data Standin.builtins Standin.signal
      Faulty.domains_without_factory Standin.storage Standin.network
      metadata t_ref_default (VInt 1024) (VFloat (of_Z 2)) None
      Standin.empty_world
    = (Raise (KeyError "f_min"), Faulty.downloaded_world).
Proof.
  intros metadata.
  assert (Hparse : @parse_settings_for_raw_data Standin.builtins metadata
                     (VInt 1024) (VFloat (of_Z 2)) = Ok Standin.settings)
    by by_evaluation.
  assert (Hload : @load_raw_data Standin.builtins Standin.storage
                    Standin.network t_ref_default Standin.settings None
                    Standin.empty_world
                  = (Ok Standin.event_data, Faulty.downloaded_world))
    by by_evaluation.
  assert (Hbuild : @build_domain_from_model_metadata
                     Faulty.domains_without_factory metadata
                   = Raise (KeyError "f_min")) by reflexivity.
  exact (conj (conj Hparse (conj Hload Hbuild))
           (@failed_factory_is_found_after_the_load Standin.builtins
              Standin.signal Faulty.domains_without_factory Standin.storage
              Standin.network metadata t_ref_default (VInt 1024)
              (VFloat (of_Z 2)) None Standin.empty_world Standin.settings
              Standin.event_data Faulty.downloaded_world _
              Hparse Hload Hbuild)).
Defined.

Lemma unreadable_domain_kind_raises_witness :
  metadata_domain_type (VDict ∅) = Raise (KeyError "dataset_settings")
  ∧ @parse_settings_for_raw_data Standin.builtins (VDict ∅) (VInt 1024)
      (VFloat (of_Z 2)) = Raise (KeyError "dataset_settings")
  ∧ @get_domain_data Standin.builtins Standin.signal Standin.domains
      Standin.storage Standin.network (VDict ∅) t_ref_default (VInt 1024)
      (VFloat (of_Z 2)) (Some "events.hdf5") Standin.empty_world
    = (Raise (KeyError "dataset_settings"), Standin.empty_world).
Proof.
  assert (Hkind : metadata_domain_type (VDict ∅)
                  = Raise (KeyError "dataset_settings")) by reflexivity.
  exact (conj Hkind
           (@unreadable_domain_kind_raises Standin.builtins Standin.signal
              Standin.domains Standin.storage Standin.network (VDict ∅)
              t_ref_default (VInt 1024) (VFloat (of_Z 2))
              (Some "events.hdf5") Standin.empty_world _ Hkind)).
Defined.

(** ** The sky position: edges *)

Section sky_edges.
Context `{Astropy}.
Local Open Scope N_scope.

Lemma fadd_not_finite x y : is_finite x = false → is_finite (fadd x y) = false.
Proof.
  destruct x as [|sx|sx a]; [| |done]; intros _; [done|].
  destruct y as [|sy|sy b]; cbn; [done| |done].
  by destruct (Bool.eqb sx sy).
Qed.

Lemma float_rem_not_finite x :
  is_finite x = false → float_rem x two_pi = NaN.
Proof.
  intros Hx. rewrite two_pi_eq. unfold float_rem.
  rewrite is_zero_Fin, fltb_zero_r.
  destruct two_pi_mag_facts as (Hnz & _ & _).
  destruct (N.eqb_spec two_pi_mag 0) as [|_]; [done|].
  by destruct x.
Qed.

(** The remainder of a non-negative finite value by a positive one is
    C's exact [fmod]. *)
Lemma float_rem_nonneg a M :
  M ≠ 0 → float_rem (Fin false a) (Fin false M) = Fin false (a mod M).
Proof.
  intros HM. unfold float_rem, fmod. rewrite is_zero_Fin.
  destruct (N.eqb_spec M 0) as [|_]; [done|].
  rewrite is_zero_Fin, !fltb_zero_r. cbn [andb xorb].
  destruct (N.eqb_spec (a mod M) 0) as [->|_]; reflexivity.
Qed.

(** X18: a right ascension that is an infinity or NaN does not raise:
    the function returns NaN. *)
Theorem not_finite_ra_gives_nan
    (ra t_event t_ref : float) (T_ref T_event : time) (g_event g_ref : float) :
  Time t_ref "gps" "utc" = Ok T_ref →
  Time t_event "gps" "utc" = Ok T_event →
  sidereal_time T_event "apparent" "greenwich" = Ok g_event →
  sidereal_time T_ref "apparent" "greenwich" = Ok g_ref →
  is_finite ra = false →
  get_corrected_sky_position ra t_event t_ref = Ok NaN.
Proof.
  intros HTr HTe Hge Hgr Hra.
  rewrite (corrected_sky_position_formula_aux ra t_event t_ref T_ref T_event
             g_event g_ref) by assumption.
  apply (f_equal Ok). apply float_rem_not_finite. by apply fadd_not_finite.
Qed.

(** X19: when [ra] plus the correction is finite and not negative, the
    result is the exact remainder, it lies in the half-open interval
    from zero to [2 * np.pi], and a sum already below [2 * np.pi] is
    returned as it is. *)
Theorem nonnegative_sum_is_reduced_exactly
    (ra t_event t_ref : float) (T_ref T_event : time) (g_event g_ref : float)
    (a : N) :
  Time t_ref "gps" "utc" = Ok T_ref →
  Time t_event "gps" "utc" = Ok T_event →
  sidereal_time T_event "apparent" "greenwich" = Ok g_event →
  sidereal_time T_ref "apparent" "greenwich" = Ok g_ref →
  fadd ra (angle_rad (fsub g_event g_ref)) = Fin false a →
  get_corrected_sky_position ra t_event t_ref
  = Ok (Fin false (a mod two_pi_mag))
  ∧ in_half_open_turn (Fin false (a mod two_pi_mag)) = true
  ∧ (a < two_pi_mag →
     get_corrected_sky_position ra t_event t_ref = Ok (Fin false a)).
Proof.
  intros HTr HTe Hge Hgr Hsum.
  destruct two_pi_mag_facts as (Hnz & _ & _).
  assert (Hrun : get_corrected_sky_position ra t_event t_ref
                 = Ok (Fin false (a mod two_pi_mag))).
  { rewrite (corrected_sky_position_formula_aux ra t_event t_ref T_ref
               T_event g_event g_ref) by assumption.
    rewrite Hsum, two_pi_eq. apply (f_equal Ok). by apply float_rem_nonneg. }
  split; [exact Hrun|]. split.
  - unfold in_half_open_turn. rewrite two_pi_eq.
    apply andb_true_intro. split.
    + apply fleb_nonneg. apply N.le_0_l.
    + apply fltb_nonneg. by apply N.mod_lt.
  - intros Hlt. rewrite Hrun. by rewrite N.mod_small.
Qed.

(** X20: the function raises nothing of its own: an exception it raises
    is one that [Time] or [sidereal_time] raised, in the order reference
    time, event time, event sidereal time, reference sidereal time. *)
Theorem sky_position_raises_only_what_astropy_raises
    (ra t_event t_ref : float) (e : exn) :
  get_corrected_sky_position ra t_event t_ref = Raise e →
  Time t_ref "gps" "utc" = Raise e
  ∨ ∃ T_ref,
      Time t_ref "gps" "utc" = Ok T_ref
      ∧ (Time t_event "gps" "utc" = Raise e
         ∨ ∃ T_event,
             Time t_event "gps" "utc" = Ok T_event
             ∧ (sidereal_time T_event "apparent" "greenwich" = Raise e
                ∨ ∃ g_event,
                    sidereal_time T_event "apparent" "greenwich" = Ok g_event
                    ∧ sidereal_time T_ref "apparent" "greenwich" = Raise e)).
Proof.
  unfold get_corrected_sky_position.
  destruct (Time t_ref "gps" "utc") as [T_ref|e1];
    cbn [mbind result_bind]; [|intros [= ->]; by left].
  intros Hrun. right. exists T_ref. split; [reflexivity|]. revert Hrun.
  destruct (Time t_event "gps" "utc") as [T_event|e2];
    cbn [mbind result_bind]; [|intros [= ->]; by left].
  intros Hrun. right. exists T_event. split; [reflexivity|]. revert Hrun.
  destruct (sidereal_time T_event "apparent" "greenwich") as [g_event|e3];
    cbn [mbind result_bind]; [|intros [= ->]; by left].
  intros Hrun. right. exists g_event. split; [reflexivity|]. revert Hrun.
  destruct (sidereal_time T_ref "apparent" "greenwich") as [g_ref|e4];
    cbn [mbind result_bind]; [|intros [= ->]; reflexivity].
  intros Hrun. discriminate Hrun.
Qed.
End sky_edges.

Lemma not_finite_ra_gives_nan_witness :
  let g := float_rem t_ref_default (of_Z 24) in
  (@Time Standin.astropy t_ref_default "gps" "utc" = Ok t_ref_default
   ∧ @sidereal_time Standin.astropy t_ref_default "apparent" "greenwich"
     = Ok g
   ∧ is_finite (Inf false) = false)
  ∧ @get_corrected_sky_position Standin.astropy (Inf false) t_ref_default
      t_ref_default = Ok NaN.
Proof.
  intros g.
  assert (HT : @Time Standin.astropy t_ref_default "gps" "utc"
               = Ok t_ref_default) by reflexivity.
  assert (Hg : @sidereal_time Standin.astropy t_ref_default "apparent"
                 "greenwich" = Ok g) by reflexivity.
  assert (Hra : is_finite (Inf false) = false) by reflexivity.
  exact (conj (conj HT (conj Hg Hra))
           (@not_finite_ra_gives_nan Standin.astropy (Inf false)
              t_ref_default t_ref_default t_ref_default t_ref_default g g
              HT HT Hg Hg Hra)).
Defined.

Lemma nonnegative_sum_is_reduced_exactly_witness :
  let g := float_rem t_ref_default (of_Z 24) in
  let a := (7 * 2 ^ 1074)%N in
  (@Time Standin.astropy t_ref_default "gps" "utc" = Ok t_ref_default
   ∧ @sidereal_time Standin.astropy t_ref_default "apparent" "greenwich"
     = Ok g
   ∧ fadd (of_Z 7) (angle_rad (fsub g g)) = Fin false a)
  ∧ @get_corrected_sky_position Standin.astropy (of_Z 7) t_ref_default
      t_ref_default = Ok (Fin false (a mod two_pi_mag))
  ∧ in_half_open_turn (Fin false (a mod two_pi_mag)) = true
  ∧ ((a < two_pi_mag)%N →
     @get_corrected_sky_position Standin.astropy (of_Z 7) t_ref_default
       t_ref_default = Ok (Fin false a)).
Proof.
  intros g a.
  assert (HT : @Time Standin.astropy t_ref_default "gps" "utc"
               = Ok t_ref_default) by reflexivity.
  assert (Hg : @sidereal_time Standin.astropy t_ref_default "apparent"
                 "greenwich" = Ok g) by reflexivity.
  assert (Hsum : fadd (of_Z 7) (angle_rad (fsub g g)) = Fin false a)
    by by_evaluation.
  exact (conj (conj HT (conj Hg Hsum))
           (@nonnegative_sum_is_reduced_exactly Standin.astropy (of_Z 7)
              t_ref_default t_ref_default t_ref_default t_ref_default g g a
              HT HT Hg Hg Hsum)).
Defined.

Lemma sky_position_raises_only_what_astropy_raises_witness :
  let e := OtherError "IERSRangeError" "time out of range" in
  @get_corrected_sky_position Faulty.astropy_without_tables (of_Z 7)
    t_ref_default t_ref_default = Raise e
  ∧ (@Time Faulty.astropy_without_tables t_ref_default "gps" "utc" = Raise e
     ∨ ∃ T_ref,
         @Time Faulty.astropy_without_tables t_ref_default "gps" "utc"
         = Ok T_ref
         ∧ (@Time Faulty.astropy_without_tables t_ref_default "gps" "utc"
            = Raise e
            ∨ ∃ T_event,
                @Time Faulty.astropy_without_tables t_ref_default "gps" "utc"
                = Ok T_event
                ∧ (@sidereal_time Faulty.astropy_without_tables T_event
                     "apparent" "greenwich" = Raise e
                   ∨ ∃ g_event,
                       @sidereal_time Faulty.astropy_without_tables T_event
                         "apparent" "greenwich" = Ok g_event
                       ∧ @sidereal_time Faulty.astropy_without_tables T_ref
                           "apparent" "greenwich" = Raise e))).
Proof.
  intros e.
  assert (Hrun : @get_corrected_sky_position Faulty.astropy_without_tables
                   (of_Z 7) t_ref_default t_ref_default = Raise e)
    by reflexivity.
  exact (conj Hrun
           (@sky_position_raises_only_what_astropy_raises
              Faulty.astropy_without_tables (of_Z 7) t_ref_default
              t_ref_default e Hrun)).
Defined.
